(** * Voice Translation Companion: the orchestration pipelines of [App]

    A shallow embedding of the handlers of the React component [App]
    (the translation pipelines, the history store and the conversation
    pipeline), with theorems about their behaviour.

    Modelling conventions.
    - React state (the [useState] cells) is the record [AppState]; a handler
      reads the cells through the closure of the render it was created in
      (the snapshot [r]) and writes them with the setters.
    - Everything outside the component is the record [World]: the
      [AsyncStorage] key/value store, the clock read by [Date.now()], the log
      of [model.generateContent] calls, the [Alert.alert] dialogs, the
      [console.error] lines and the pending [setTimeout] callbacks.
    - The external behaviour is the record [Env]: what the generative model
      answers to the n-th request (or that the request is rejected), how
      many milliseconds that request takes, whether the n-th [AsyncStorage]
      operation succeeds, how many milliseconds have gone by when the clock
      is read for the n-th time, and the case tables of the JavaScript
      engine.
    - An [async] function is a computation in the monad [M], state passing
      plus exceptions; handlers run one at a time, each to completion.
    - The clock never goes back; it advances while a request is in flight,
      between two user actions, and possibly between two reads of
      [Date.now()], by the amount the environment gives.
    - A string is its UTF-8 encoding, a sequence of bytes.  [trim] strips
      the white space and line terminators of ECMAScript.  [toLowerCase]
      folds the letters A to Z of a text that is all ASCII, and is given by
      the environment on any other text.
    - The history cell is typed [TranslationHistoryItem[]], and
      [JSON.stringify] followed by [JSON.parse] is the identity on such
      arrays.  A value kept by the store is such an array or text that is
      not JSON; JSON text of any other shape is not represented. *)

From Stdlib Require Import ZArith Lia Bool Ascii String Sorted.
From stdpp Require Import base option list strings gmap pretty.

Local Open Scope string_scope.
Local Open Scope Z_scope.

(** ** JavaScript string operations used by the handlers *)

Module JS.

(** The white space and line terminators of ECMAScript, by the length of
    their UTF-8 encoding.  One byte: U+0009 to U+000D and U+0020. *)
Definition oneByteSpace (c1 : ascii) : bool :=
  let n1 := nat_of_ascii c1 in
  (Nat.eqb n1 32 || (Nat.leb 9 n1 && Nat.leb n1 13))%bool.

(** Two bytes: U+00A0. *)
Definition twoByteSpace (c1 c2 : ascii) : bool :=
  (Nat.eqb (nat_of_ascii c1) 194 && Nat.eqb (nat_of_ascii c2) 160)%bool.

(** Three bytes: U+1680, U+2000 to U+200A, U+2028, U+2029, U+202F, U+205F,
    U+3000 and U+FEFF. *)
Definition threeByteSpace (c1 c2 c3 : ascii) : bool :=
  let n1 := nat_of_ascii c1 in
  let n2 := nat_of_ascii c2 in
  let n3 := nat_of_ascii c3 in
  ((Nat.eqb n1 225 && Nat.eqb n2 154 && Nat.eqb n3 128)
   || (Nat.eqb n1 226 && Nat.eqb n2 128
       && ((Nat.leb 128 n3 && Nat.leb n3 138)
           || Nat.eqb n3 168 || Nat.eqb n3 169 || Nat.eqb n3 175))
   || (Nat.eqb n1 226 && Nat.eqb n2 129 && Nat.eqb n3 159)
   || (Nat.eqb n1 227 && Nat.eqb n2 128 && Nat.eqb n3 128)
   || (Nat.eqb n1 239 && Nat.eqb n2 187 && Nat.eqb n3 191))%bool.

(** [trimStart s] is [s] without its leading white space. *)
Fixpoint trimStart (s : string) : string :=
  match s with
  | EmptyString => EmptyString
  | String c1 s1 =>
      if oneByteSpace c1 then trimStart s1
      else
        match s1 with
        | EmptyString => s
        | String c2 s2 =>
            if twoByteSpace c1 c2 then trimStart s2
            else
              match s2 with
              | EmptyString => s
              | String c3 s3 =>
                  if threeByteSpace c1 c2 c3 then trimStart s3 else s
              end
        end
  end.

(** [trimEnd s] is [s] without its trailing white space: it stops where
    what is left is white space only. *)
Fixpoint trimEnd (s : string) : string :=
  match s with
  | EmptyString => EmptyString
  | String c s' =>
      match trimStart (String c s') with
      | EmptyString => EmptyString
      | _ => String c (trimEnd s')
      end
  end.

(** [String.prototype.trim] *)
Definition trim (s : string) : string := trimEnd (trimStart s).

(** A text of ASCII characters only. *)
Fixpoint isAscii (s : string) : bool :=
  match s with
  | EmptyString => true
  | String c s' => (Nat.ltb (nat_of_ascii c) 128 && isAscii s')%bool
  end.

Definition lowerChar (c : ascii) : ascii :=
  let n := nat_of_ascii c in
  if (Nat.leb 65 n && Nat.leb n 90)%bool then ascii_of_nat (n + 32) else c.

(** [String.prototype.toLowerCase] on a text that is all ASCII. *)
Fixpoint lowerAscii (s : string) : string :=
  match s with
  | EmptyString => EmptyString
  | String c s' => String (lowerChar c) (lowerAscii s')
  end.

(** [String.prototype.toLowerCase] on a text of ASCII and Latin-1
    characters: the capitals U+00C0 to U+00DE other than the sign U+00D7,
    encoded as the byte 195 and a byte from 128 to 158, become the letters
    32 places further. *)
Fixpoint lowerLatin1 (s : string) : string :=
  match s with
  | EmptyString => EmptyString
  | String c1 s1 =>
      match s1 with
      | String c2 s2 =>
          let n2 := nat_of_ascii c2 in
          if (Nat.eqb (nat_of_ascii c1) 195 && Nat.leb 128 n2 && Nat.leb n2 158
              && negb (Nat.eqb n2 151))%bool
          then String c1 (String (ascii_of_nat (n2 + 32)) (lowerLatin1 s2))
          else String (lowerChar c1) (lowerLatin1 s1)
      | EmptyString => String (lowerChar c1) EmptyString
      end
  end.

Definition star : ascii := "*"%char.
Definition newline : ascii := "010"%char.

(** [s.replace(/\*+/g, '')]: every maximal run of stars is replaced by the
    empty string, so every star is deleted. *)
Fixpoint removeStars (s : string) : string :=
  match s with
  | EmptyString => EmptyString
  | String c s' =>
      if Ascii.eqb c star then removeStars s' else String c (removeStars s')
  end.

(** [s.split('\n')]: the pieces between line feeds; the empty string splits
    into one empty piece. *)
Fixpoint splitLines (s : string) : list string :=
  match s with
  | EmptyString => [EmptyString]
  | String c s' =>
      if Ascii.eqb c newline then EmptyString :: splitLines s'
      else match splitLines s' with
           | [] => [String c EmptyString]
           | p :: ps => String c p :: ps
           end
  end.

(** Truthiness of a string: the empty string is falsy. *)
Definition truthy (s : string) : bool :=
  match s with EmptyString => false | _ => true end.

(** [!value] for a value that is a string or [null]. *)
Definition falsy (value : option string) : bool :=
  match value with
  | Some s => negb (truthy s)
  | None => true
  end.

End JS.

(** ** Data model *)

(** [interface TranslationHistoryItem] *)
Record TranslationHistoryItem := mkItem {
  id : string;
  transcribedText : string;
  translatedText : string;
  culturalTips : list string;
  sourceLang : string;
  targetLang : string;
  timestamp : Z;
  isFavorite : bool
}.

(** The argument of [saveTranslation]:
    [Omit<TranslationHistoryItem, 'id' | 'timestamp'>]. *)
Record TranslationDraft := mkDraft {
  d_transcribedText : string;
  d_translatedText : string;
  d_culturalTips : list string;
  d_sourceLang : string;
  d_targetLang : string;
  d_isFavorite : bool
}.

Inductive Speaker := A | B.

Definition opposite (s : Speaker) : Speaker :=
  match s with A => B | B => A end.

(** An element of the [conversationHistory] array. *)
Record ConversationItem := mkTurn {
  c_id : string;
  c_text : string;
  c_translation : string;
  c_speaker : Speaker;
  c_timestamp : Z
}.

Inductive InputMode := ModeVoice | ModeText | ModeOcr.

Inductive View := ViewMain | ViewHistory | ViewConversation.

(** What an [Audio.Recording] gives back when it is stopped and read:
    whether [stopAndUnloadAsync] resolves, what [getURI] returns, and the
    outcome of [fetch(uri)], [blob()] and [blobToBase64]: the content-type
    header and the base64 data, or nothing when one of them rejects. *)
Record Recording := mkRecording {
  stopAndUnloadOk : bool;
  getURI : option string;
  fetched : option (option string * string)
}.

(** ** React state

    One field per [useState] cell of [App] that a modelled handler or the
    modelled part of the render reads or writes.  The cells [modalVisible],
    [editingLang] and [searchTerm] only drive the language picker and are
    kept apart, in the record [LanguagePicker]. *)

Module State.

Record AppState := mkApp {
  recording : option Recording;
  transcribedText : string;
  translatedText : string;
  culturalTips : list string;
  isLoading : bool;
  sourceLang : string;
  targetLang : string;
  isOffline : bool;
  history : list TranslationHistoryItem;
  view : View;
  inputMode : InputMode;
  textToTranslate : string;
  conversationHistory : list ConversationItem;
  activeConversationSpeaker : Speaker;
  aiConversationMode : bool;
  ocrImage : option string;
  ocrText : string;
  isProcessingOCR : bool
}.

(** The initial values given to [useState]. *)
Definition initial : AppState :=
  mkApp None EmptyString EmptyString [] false "en" "es" false [] ViewMain
        ModeVoice EmptyString [] A true None EmptyString false.

(** Functional update of one cell. *)
Definition with_recording (v : option Recording) (s : AppState) : AppState :=
  mkApp v (transcribedText s) (translatedText s) (culturalTips s)
    (isLoading s) (sourceLang s) (targetLang s) (isOffline s) (history s)
    (view s) (inputMode s) (textToTranslate s) (conversationHistory s)
    (activeConversationSpeaker s) (aiConversationMode s) (ocrImage s)
    (ocrText s) (isProcessingOCR s).

Definition with_transcribedText (v : string) (s : AppState) : AppState :=
  mkApp (recording s) v (translatedText s) (culturalTips s) (isLoading s)
    (sourceLang s) (targetLang s) (isOffline s) (history s) (view s)
    (inputMode s) (textToTranslate s) (conversationHistory s)
    (activeConversationSpeaker s) (aiConversationMode s) (ocrImage s)
    (ocrText s) (isProcessingOCR s).

Definition with_translatedText (v : string) (s : AppState) : AppState :=
  mkApp (recording s) (transcribedText s) v (culturalTips s) (isLoading s)
    (sourceLang s) (targetLang s) (isOffline s) (history s) (view s)
    (inputMode s) (textToTranslate s) (conversationHistory s)
    (activeConversationSpeaker s) (aiConversationMode s) (ocrImage s)
    (ocrText s) (isProcessingOCR s).

Definition with_culturalTips (v : list string) (s : AppState) : AppState :=
  mkApp (recording s) (transcribedText s) (translatedText s) v (isLoading s)
    (sourceLang s) (targetLang s) (isOffline s) (history s) (view s)
    (inputMode s) (textToTranslate s) (conversationHistory s)
    (activeConversationSpeaker s) (aiConversationMode s) (ocrImage s)
    (ocrText s) (isProcessingOCR s).

Definition with_isLoading (v : bool) (s : AppState) : AppState :=
  mkApp (recording s) (transcribedText s) (translatedText s)
    (culturalTips s) v (sourceLang s) (targetLang s) (isOffline s)
    (history s) (view s) (inputMode s) (textToTranslate s)
    (conversationHistory s) (activeConversationSpeaker s)
    (aiConversationMode s) (ocrImage s) (ocrText s) (isProcessingOCR s).

Definition with_sourceLang (v : string) (s : AppState) : AppState :=
  mkApp (recording s) (transcribedText s) (translatedText s)
    (culturalTips s) (isLoading s) v (targetLang s) (isOffline s)
    (history s) (view s) (inputMode s) (textToTranslate s)
    (conversationHistory s) (activeConversationSpeaker s)
    (aiConversationMode s) (ocrImage s) (ocrText s) (isProcessingOCR s).

Definition with_targetLang (v : string) (s : AppState) : AppState :=
  mkApp (recording s) (transcribedText s) (translatedText s)
    (culturalTips s) (isLoading s) (sourceLang s) v (isOffline s)
    (history s) (view s) (inputMode s) (textToTranslate s)
    (conversationHistory s) (activeConversationSpeaker s)
    (aiConversationMode s) (ocrImage s) (ocrText s) (isProcessingOCR s).

Definition with_isOffline (v : bool) (s : AppState) : AppState :=
  mkApp (recording s) (transcribedText s) (translatedText s)
    (culturalTips s) (isLoading s) (sourceLang s) (targetLang s) v
    (history s) (view s) (inputMode s) (textToTranslate s)
    (conversationHistory s) (activeConversationSpeaker s)
    (aiConversationMode s) (ocrImage s) (ocrText s) (isProcessingOCR s).

Definition with_history (v : list TranslationHistoryItem) (s : AppState) : AppState :=
  mkApp (recording s) (transcribedText s) (translatedText s)
    (culturalTips s) (isLoading s) (sourceLang s) (targetLang s)
    (isOffline s) v (view s) (inputMode s) (textToTranslate s)
    (conversationHistory s) (activeConversationSpeaker s)
    (aiConversationMode s) (ocrImage s) (ocrText s) (isProcessingOCR s).

Definition with_view (v : View) (s : AppState) : AppState :=
  mkApp (recording s) (transcribedText s) (translatedText s)
    (culturalTips s) (isLoading s) (sourceLang s) (targetLang s)
    (isOffline s) (history s) v (inputMode s) (textToTranslate s)
    (conversationHistory s) (activeConversationSpeaker s)
    (aiConversationMode s) (ocrImage s) (ocrText s) (isProcessingOCR s).

Definition with_inputMode (v : InputMode) (s : AppState) : AppState :=
  mkApp (recording s) (transcribedText s) (translatedText s)
    (culturalTips s) (isLoading s) (sourceLang s) (targetLang s)
    (isOffline s) (history s) (view s) v (textToTranslate s)
    (conversationHistory s) (activeConversationSpeaker s)
    (aiConversationMode s) (ocrImage s) (ocrText s) (isProcessingOCR s).

Definition with_textToTranslate (v : string) (s : AppState) : AppState :=
  mkApp (recording s) (transcribedText s) (translatedText s)
    (culturalTips s) (isLoading s) (sourceLang s) (targetLang s)
    (isOffline s) (history s) (view s) (inputMode s) v
    (conversationHistory s) (activeConversationSpeaker s)
    (aiConversationMode s) (ocrImage s) (ocrText s) (isProcessingOCR s).

Definition with_conversationHistory (v : list ConversationItem) (s : AppState) : AppState :=
  mkApp (recording s) (transcribedText s) (translatedText s)
    (culturalTips s) (isLoading s) (sourceLang s) (targetLang s)
    (isOffline s) (history s) (view s) (inputMode s) (textToTranslate s) v
    (activeConversationSpeaker s) (aiConversationMode s) (ocrImage s)
    (ocrText s) (isProcessingOCR s).

Definition with_activeConversationSpeaker (v : Speaker) (s : AppState) : AppState :=
  mkApp (recording s) (transcribedText s) (translatedText s)
    (culturalTips s) (isLoading s) (sourceLang s) (targetLang s)
    (isOffline s) (history s) (view s) (inputMode s) (textToTranslate s)
    (conversationHistory s) v (aiConversationMode s) (ocrImage s)
    (ocrText s) (isProcessingOCR s).

Definition with_aiConversationMode (v : bool) (s : AppState) : AppState :=
  mkApp (recording s) (transcribedText s) (translatedText s)
    (culturalTips s) (isLoading s) (sourceLang s) (targetLang s)
    (isOffline s) (history s) (view s) (inputMode s) (textToTranslate s)
    (conversationHistory s) (activeConversationSpeaker s) v (ocrImage s)
    (ocrText s) (isProcessingOCR s).

Definition with_ocrImage (v : option string) (s : AppState) : AppState :=
  mkApp (recording s) (transcribedText s) (translatedText s)
    (culturalTips s) (isLoading s) (sourceLang s) (targetLang s)
    (isOffline s) (history s) (view s) (inputMode s) (textToTranslate s)
    (conversationHistory s) (activeConversationSpeaker s)
    (aiConversationMode s) v (ocrText s) (isProcessingOCR s).

Definition with_ocrText (v : string) (s : AppState) : AppState :=
  mkApp (recording s) (transcribedText s) (translatedText s)
    (culturalTips s) (isLoading s) (sourceLang s) (targetLang s)
    (isOffline s) (history s) (view s) (inputMode s) (textToTranslate s)
    (conversationHistory s) (activeConversationSpeaker s)
    (aiConversationMode s) (ocrImage s) v (isProcessingOCR s).

Definition with_isProcessingOCR (v : bool) (s : AppState) : AppState :=
  mkApp (recording s) (transcribedText s) (translatedText s)
    (culturalTips s) (isLoading s) (sourceLang s) (targetLang s)
    (isOffline s) (history s) (view s) (inputMode s) (textToTranslate s)
    (conversationHistory s) (activeConversationSpeaker s)
    (aiConversationMode s) (ocrImage s) (ocrText s) v.

End State.

(** ** The world outside the component *)

(** An argument of [model.generateContent]: a prompt, or a prompt with one
    inline media part (MIME type and base64 data). *)
Inductive Request :=
  | Prompt (prompt : string)
  | PromptWithMedia (prompt : string) (mimeType : string) (data : string).

(** A value kept by [AsyncStorage].  [JSON.stringify] of a history array is
    [JsonHistory]; [NotJson] is text that is not JSON, on which [JSON.parse]
    throws a [SyntaxError]. *)
Inductive StoredValue :=
  | JsonHistory (h : list TranslationHistoryItem)
  | NotJson.

Inductive Error :=
  | GatewayError | StorageError | FetchError | RecordingError | SyntaxError.

Record World := mkWorld {
  app : State.AppState;                   (* the React state *)
  storage : gmap string StoredValue;      (* AsyncStorage *)
  now : Z;                                (* Date.now() *)
  calls : list (Request * option string); (* generateContent, oldest first *)
  ios : nat;                              (* AsyncStorage operations so far *)
  alerts : list (string * string);        (* Alert.alert(title, message) *)
  errors : list string;                   (* console.error *)
  timers : list (string * string);        (* setTimeout(speak(text, lang)) *)
  reads : nat                             (* reads of the clock so far *)
}.

Record Env := mkEnv {
  respond : nat -> Request -> option string; (* answer to the n-th request *)
  latency : nat -> N;                        (* its duration in ms *)
  storageOk : nat -> bool;                   (* the n-th storage operation *)
  tick : nat -> N;                           (* ms gone by at the n-th read *)
  unicodeLowerCase : string -> string        (* toLowerCase beyond ASCII *)
}.

(** [String.prototype.toLowerCase]: on a text that is all ASCII the letters
    A to Z are folded and nothing else changes; on any other text the
    result is that of the engine, with its Unicode case tables, which the
    environment gives. *)
Definition toLowerCase (E : Env) (s : string) : string :=
  if JS.isAscii s then JS.lowerAscii s else unicodeLowerCase E s.

(** ** Asynchronous computations *)

Inductive Outcome (T : Type) :=
  | Resolved (x : T)
  | Rejected (e : Error).
Arguments Resolved {T} x.
Arguments Rejected {T} e.

Definition M (T : Type) : Type := World -> Outcome T * World.

Definition ret {T} (x : T) : M T := fun w => (Resolved x, w).

Definition bind {T U} (m : M T) (k : T -> M U) : M U :=
  fun w =>
    match m w with
    | (Resolved x, w') => k x w'
    | (Rejected e, w') => (Rejected e, w')
    end.

Definition throw {T} (e : Error) : M T := fun w => (Rejected e, w).

#[global] Instance M_ret : MRet M := @ret.
#[global] Instance M_bind : MBind M := fun T U k m => bind m k.

(** [try { body } catch (e) { handler }] *)
Definition tryCatch {T} (body : M T) (handler : Error -> M T) : M T :=
  fun w =>
    match body w with
    | (Resolved x, w') => (Resolved x, w')
    | (Rejected e, w') => handler e w'
    end.

(** [try { body } catch (e) { handler } finally { cleanup }] *)
Definition tryCatchFinally {T} (body : M T) (handler : Error -> M T)
    (cleanup : M unit) : M T :=
  fun w =>
    match tryCatch body handler w with
    | (Resolved x, w') =>
        match cleanup w' with
        | (Resolved _, w'') => (Resolved x, w'')
        | (Rejected e, w'') => (Rejected e, w'')
        end
    | (Rejected e, w') =>
        match cleanup w' with
        | (Resolved _, w'') => (Rejected e, w'')
        | (Rejected e', w'') => (Rejected e', w'')
        end
    end.

(** The world a computation leaves behind. *)
Definition exec {T} (m : M T) (w : World) : World := snd (m w).

(** A handler is created by a render and sees the state of that render. *)
Definition handle {T} (h : State.AppState -> M T) : M T :=
  fun w => h (app w) w.

Definition modifyApp (f : State.AppState -> State.AppState) : M unit :=
  fun w => (Resolved tt,
            mkWorld (f (app w)) (storage w) (now w) (calls w) (ios w)
                    (alerts w) (errors w) (timers w) (reads w)).

(** Time passing between two user actions. *)
Definition wait (ms : N) : M unit :=
  fun w => (Resolved tt,
            mkWorld (app w) (storage w) (now w + Z.of_N ms) (calls w) (ios w)
                    (alerts w) (errors w) (timers w) (reads w)).

Definition Alert_alert (title message : string) : M unit :=
  fun w => (Resolved tt,
            mkWorld (app w) (storage w) (now w) (calls w) (ios w)
                    (alerts w ++ [(title, message)]) (errors w) (timers w)
                    (reads w)).

Definition console_error (message : string) : M unit :=
  fun w => (Resolved tt,
            mkWorld (app w) (storage w) (now w) (calls w) (ios w)
                    (alerts w) (errors w ++ [message]) (timers w) (reads w)).

(** [setTimeout(async () => { await speak(text, language) }, 500)] *)
Definition setTimeout_speak (text language : string) : M unit :=
  fun w => (Resolved tt,
            mkWorld (app w) (storage w) (now w) (calls w) (ios w)
                    (alerts w) (errors w) (timers w ++ [(text, language)])
                    (reads w)).

Section Environment.

Variable E : Env.

(** [Date.now()]: the clock after the time gone by since it was last
    looked at. *)
Definition Date_now : M Z :=
  fun w =>
    let t := now w + Z.of_N (tick E (reads w)) in
    (Resolved t,
     mkWorld (app w) (storage w) t (calls w) (ios w)
             (alerts w) (errors w) (timers w) (S (reads w))).

(** [(await model.generateContent(req)).response.text()] *)
Definition generateContent (req : Request) : M string :=
  fun w =>
    let n := length (calls w) in
    let answer := respond E n req in
    let w' := mkWorld (app w) (storage w) (now w + Z.of_N (latency E n))
                      (calls w ++ [(req, answer)]) (ios w)
                      (alerts w) (errors w) (timers w) (reads w) in
    match answer with
    | Some txt => (Resolved txt, w')
    | None => (Rejected GatewayError, w')
    end.

Definition AsyncStorage_getItem (key : string) : M (option StoredValue) :=
  fun w =>
    let w' := mkWorld (app w) (storage w) (now w) (calls w) (S (ios w))
                      (alerts w) (errors w) (timers w) (reads w) in
    if storageOk E (ios w) then (Resolved (storage w !! key), w')
    else (Rejected StorageError, w').

Definition AsyncStorage_setItem (key : string) (value : StoredValue)
    : M unit :=
  fun w =>
    if storageOk E (ios w) then
      (Resolved tt,
       mkWorld (app w) (<[key := value]> (storage w)) (now w) (calls w)
               (S (ios w)) (alerts w) (errors w) (timers w) (reads w))
    else
      (Rejected StorageError,
       mkWorld (app w) (storage w) (now w) (calls w) (S (ios w))
               (alerts w) (errors w) (timers w) (reads w)).

End Environment.

Definition JSON_stringify (h : list TranslationHistoryItem) : StoredValue :=
  JsonHistory h.

Definition JSON_parse (v : StoredValue) : M (list TranslationHistoryItem) :=
  match v with
  | JsonHistory h => ret h
  | NotJson => throw SyntaxError
  end.

(** The [useState] setters. *)
Definition setRecording v := modifyApp (State.with_recording v).
Definition setTranscribedText v := modifyApp (State.with_transcribedText v).
Definition setTranslatedText v := modifyApp (State.with_translatedText v).
Definition setCulturalTips v := modifyApp (State.with_culturalTips v).
Definition setIsLoading v := modifyApp (State.with_isLoading v).
Definition setSourceLang v := modifyApp (State.with_sourceLang v).
Definition setTargetLang v := modifyApp (State.with_targetLang v).
Definition setIsOffline v := modifyApp (State.with_isOffline v).
Definition setHistory v := modifyApp (State.with_history v).
Definition setView v := modifyApp (State.with_view v).
Definition setInputMode v := modifyApp (State.with_inputMode v).
Definition setTextToTranslate v := modifyApp (State.with_textToTranslate v).
Definition setActiveConversationSpeaker v :=
  modifyApp (State.with_activeConversationSpeaker v).
Definition setAiConversationMode v :=
  modifyApp (State.with_aiConversationMode v).
Definition setOcrImage v := modifyApp (State.with_ocrImage v).
Definition setOcrText v := modifyApp (State.with_ocrText v).
Definition setIsProcessingOCR v := modifyApp (State.with_isProcessingOCR v).

(** [setConversationHistory(prev => f(prev))]: the update is applied to the
    current value of the cell, not to the one the handler closed over. *)
Definition setConversationHistory
    (f : list ConversationItem -> list ConversationItem) : M unit :=
  modifyApp (fun s =>
    State.with_conversationHistory (f (State.conversationHistory s)) s).

(** ** Prompts *)

Definition dq : string := String "034"%char EmptyString.
Definition nl : string := String JS.newline EmptyString.

Definition transcribePrompt (lang : string) : string :=
  "Transcribe this audio in " +:+ lang +:+ " language.".

Definition translatePrompt (fromLang toLang txt : string) : string :=
  "Translate this text from " +:+ fromLang +:+ " to " +:+ toLang +:+ ": "
  +:+ txt.

Definition tipsPrompt (toLang translated : string) : string :=
  "Provide 3-5 concise cultural nuance tips for speaking " +:+ toLang
  +:+ " in a conversation, considering the context of the translated text: "
  +:+ dq +:+ translated +:+ dq +:+ ". Format as a numbered list.".

Definition detectPrompt (txt : string) : string :=
  "Detect the language of this text and respond with just the language code (e.g., "
  +:+ dq +:+ "en" +:+ dq +:+ " for English, " +:+ dq +:+ "es" +:+ dq
  +:+ " for Spanish): " +:+ txt.

Definition ocrDetectPrompt (txt : string) : string :=
  "Detect the language of this text and return only the language code (e.g., 'en', 'es', 'fr'): "
  +:+ dq +:+ txt +:+ dq.

Definition ocrTranslatePrompt (fromLang toLang txt : string) : string :=
  "Translate this text from " +:+ fromLang +:+ " to " +:+ toLang +:+ ": "
  +:+ dq +:+ txt +:+ dq.

Definition ocrTipsPrompt (fromLang toLang : string) : string :=
  "Provide 2-3 brief cultural context tips for translating from "
  +:+ fromLang +:+ " to " +:+ toLang +:+ ". Format as bullet points.".

Definition extractPrompt : string :=
  "Extract all text from this image. Return only the text content, no additional explanations or formatting.".

Definition responsePrompt (userMessage conversationContext toLang : string)
    : string :=
  "You are having a natural conversation. The user just said: "
  +:+ dq +:+ userMessage +:+ dq +:+ nl
  +:+ "      " +:+ nl
  +:+ "Previous conversation context:" +:+ nl
  +:+ conversationContext +:+ nl
  +:+ nl
  +:+ "Generate a natural, helpful, and engaging response in " +:+ toLang
  +:+ " language. Keep it conversational and relevant to what they said. Be friendly and helpful. Maximum 2 sentences.".

(** [array.slice(-n)]: the last [n] elements. *)
Definition sliceLast {T} (n : nat) (l : list T) : list T :=
  drop (length l - n) l.

(** [array.join(sep)] *)
Fixpoint join (sep : string) (l : list string) : string :=
  match l with
  | [] => EmptyString
  | [x] => x
  | x :: rest => x +:+ sep +:+ join sep rest
  end.

(** [header || 'audio/m4a'] *)
Definition orDefault (header : option string) (dflt : string) : string :=
  match header with
  | Some h => if JS.truthy h then h else dflt
  | None => dflt
  end.

(** The text clean-up applied to the model's answers. *)
Definition cleanText (raw : string) : string :=
  JS.removeStars (JS.trim raw).

Definition tipLines (raw : string) : list string :=
  filter (fun tip => (0 < String.length tip)%nat)
         (JS.splitLines (JS.removeStars (JS.trim raw))).

Definition ocrTipLines (raw : string) : list string :=
  filter (fun tip => JS.truthy (JS.trim tip) = true)
         (JS.splitLines (JS.removeStars (JS.trim raw))).

(** ** The handlers of [App] *)

Section Handlers.

Variable E : Env.

(** [loadHistory] *)
Definition loadHistory : M unit :=
  tryCatch
    (jsonValue ← AsyncStorage_getItem E "@translation_history";
     match jsonValue with
     | Some v => parsed ← JSON_parse v; setHistory parsed
     | None => ret tt
     end)
    (fun e => console_error "Failed to load history.").

(** [saveTranslation], created by the render [r]. *)
Definition saveTranslation (r : State.AppState) (item : TranslationDraft)
    : M unit :=
  tryCatch
    (t_id ← Date_now E;
     t_stamp ← Date_now E;
     let newHistoryItem :=
       {| id := pretty t_id;
          transcribedText := d_transcribedText item;
          translatedText := d_translatedText item;
          culturalTips := d_culturalTips item;
          sourceLang := d_sourceLang item;
          targetLang := d_targetLang item;
          timestamp := t_stamp;
          isFavorite := false |} in
     let newHistory := newHistoryItem :: State.history r in
     setHistory newHistory;;
     AsyncStorage_setItem E "@translation_history" (JSON_stringify newHistory))
    (fun e => console_error "Failed to save translation.").

(** What [Audio.requestPermissionsAsync], [Audio.setAudioModeAsync] and
    [Audio.Recording.createAsync] give when recording starts. *)
Inductive Microphone :=
  | PermissionDenied
  | RecordingCreated (rec : Recording)
  | MicrophoneFailure.

(** [startRecording] *)
Definition startRecording (mic : Microphone) : M unit :=
  tryCatch
    (match mic with
     | PermissionDenied =>
         Alert_alert "Microphone Permission Required"
           "Please allow microphone access to use voice translation."
     | RecordingCreated rec => setRecording (Some rec)
     | MicrophoneFailure => throw RecordingError
     end)
    (fun e => console_error "Failed to start recording";;
              Alert_alert "Error" "Failed to start recording.").

Definition stopAndUnloadAsync (rec : Recording) : M unit :=
  if stopAndUnloadOk rec then ret tt else throw RecordingError.

(** [fetch(uri)], [blob()] and [blobToBase64] on the recorded audio. *)
Definition fetchAudio (rec : Recording) : M (option string * string) :=
  match fetched rec with
  | Some audio => ret audio
  | None => throw FetchError
  end.

(** [stopRecording], created by the render [r]. *)
Definition stopRecording (r : State.AppState) : M unit :=
  match State.recording r with
  | None => ret tt
  | Some rec =>
      setRecording None;;
      stopAndUnloadAsync rec;;
      if JS.falsy (getURI rec) then Alert_alert "Error" "No audio recorded."
      else
      setIsLoading true;;
      setTranscribedText EmptyString;;
      setTranslatedText EmptyString;;
      setCulturalTips [];;
      tryCatchFinally
        (audio ← fetchAudio rec;
         raw ← generateContent E
                 (PromptWithMedia
                    (transcribePrompt (State.sourceLang r))
                    (orDefault (fst audio) "audio/m4a") (snd audio));
         let txt := JS.trim raw in
         setTranscribedText txt;;
         raw ← generateContent E
                 (Prompt (translatePrompt (State.sourceLang r)
                            (State.targetLang r) txt));
         let translated := cleanText raw in
         setTranslatedText translated;;
         raw ← generateContent E
                 (Prompt (tipsPrompt (State.targetLang r) translated));
         let tips := tipLines raw in
         setCulturalTips tips;;
         saveTranslation r
           {| d_transcribedText := txt;
              d_translatedText := translated;
              d_culturalTips := tips;
              d_sourceLang := State.sourceLang r;
              d_targetLang := State.targetLang r;
              d_isFavorite := false |})
        (fun e =>
           console_error "Processing error";;
           Alert_alert "Error"
             "Failed to process audio. Check your API key and network.")
        (setIsLoading false)
  end.

(** [toggleFavorite], created by the render [r]. *)
Definition toggleFavorite (r : State.AppState) (key : string) : M unit :=
  tryCatch
    (let newHistory :=
       map (fun item =>
              if String.eqb (id item) key
              then {| id := id item;
                      transcribedText := transcribedText item;
                      translatedText := translatedText item;
                      culturalTips := culturalTips item;
                      sourceLang := sourceLang item;
                      targetLang := targetLang item;
                      timestamp := timestamp item;
                      isFavorite := negb (isFavorite item) |}
              else item)
           (State.history r) in
     setHistory newHistory;;
     AsyncStorage_setItem E "@translation_history" (JSON_stringify newHistory))
    (fun e => console_error "Failed to toggle favorite.").

(** [translateText], created by the render [r]. *)
Definition translateText (r : State.AppState) : M unit :=
  if negb (JS.truthy (JS.trim (State.textToTranslate r))) then
    Alert_alert "Error" "Please enter some text to translate."
  else
    setIsLoading true;;
    setTranscribedText EmptyString;;
    setTranslatedText EmptyString;;
    setCulturalTips [];;
    tryCatchFinally
      (detectedLang ←
         (if String.eqb (State.sourceLang r) "auto" then
            raw ← generateContent E
                    (Prompt (detectPrompt (State.textToTranslate r)));
            ret (toLowerCase E (JS.trim raw))
          else ret (State.sourceLang r));
       setTranscribedText (State.textToTranslate r);;
       raw ← generateContent E
               (Prompt (translatePrompt detectedLang (State.targetLang r)
                          (State.textToTranslate r)));
       let translated := cleanText raw in
       setTranslatedText translated;;
       raw ← generateContent E
               (Prompt (tipsPrompt (State.targetLang r) translated));
       let tips := tipLines raw in
       setCulturalTips tips;;
       saveTranslation r
         {| d_transcribedText := State.textToTranslate r;
            d_translatedText := translated;
            d_culturalTips := tips;
            d_sourceLang := detectedLang;
            d_targetLang := State.targetLang r;
            d_isFavorite := false |};;
       setTextToTranslate EmptyString)
      (fun e =>
         console_error "Translation error";;
         Alert_alert "Error"
           "Failed to translate text. Check your API key and network.")
      (setIsLoading false).

(** [startConversationRecording] *)
Definition startConversationRecording (mic : Microphone) : M unit :=
  tryCatch
    (match mic with
     | PermissionDenied =>
         Alert_alert "Permission required"
           "Microphone permission is needed to record audio."
     | RecordingCreated rec => setRecording (Some rec)
     | MicrophoneFailure => throw RecordingError
     end)
    (fun e => console_error "Failed to start recording";;
              Alert_alert "Error" "Failed to start recording.").

(** The constant [conversationContext] of [generateAIResponse]: the last
    four turns the render [r] knows, one labelled line each. *)
Definition conversationContext (r : State.AppState) : string :=
  join nl
    (map (fun item =>
            (match c_speaker item with
             | A => "User"
             | B => "Assistant"
             end) +:+ ": " +:+ c_translation item)
         (sliceLast 4 (State.conversationHistory r))).

(** The constants [fromLang] and [toLang] of [stopConversationRecording]. *)
Definition fromLang (r : State.AppState) : string :=
  match State.activeConversationSpeaker r with
  | A => State.sourceLang r
  | B => State.targetLang r
  end.

Definition toLang (r : State.AppState) : string :=
  match State.activeConversationSpeaker r with
  | A => State.targetLang r
  | B => State.sourceLang r
  end.

(** [generateAIResponse], created by the render [r]. *)
Definition generateAIResponse (r : State.AppState)
    (userMessage fromLang toLang : string) : M unit :=
  tryCatch
    (raw ← generateContent E
             (Prompt (responsePrompt userMessage (conversationContext r)
                        toLang));
     let aiResponse := cleanText raw in
     raw ← generateContent E
             (Prompt (translatePrompt toLang fromLang aiResponse));
     let aiResponseTranslated := cleanText raw in
     t_id ← Date_now E;
     t_stamp ← Date_now E;
     let aiConversationItem :=
       {| c_id := pretty (t_id + 1);
          c_text := aiResponse;
          c_translation := aiResponseTranslated;
          c_speaker := match State.activeConversationSpeaker r with
                       | A => B
                       | B => A
                       end;
          c_timestamp := t_stamp + 1 |} in
     setConversationHistory (fun prev => (prev ++ [aiConversationItem])%list);;
     setTimeout_speak aiResponse toLang)
    (fun e => console_error "AI Response error").

(** [stopConversationRecording], created by the render [r]. *)
Definition stopConversationRecording (r : State.AppState) : M unit :=
  match State.recording r with
  | None => ret tt
  | Some rec =>
      setRecording None;;
      stopAndUnloadAsync rec;;
      if JS.falsy (getURI rec) then Alert_alert "Error" "No audio recorded."
      else
      setIsLoading true;;
      tryCatchFinally
        (audio ← fetchAudio rec;
         raw ← generateContent E
                 (PromptWithMedia (transcribePrompt (fromLang r))
                    (orDefault (fst audio) "audio/m4a") (snd audio));
         let txt := JS.trim raw in
         raw ← generateContent E
                 (Prompt (translatePrompt (fromLang r) (toLang r) txt));
         let translated := JS.trim raw in
         t_id ← Date_now E;
         t_stamp ← Date_now E;
         let newConversationItem :=
           {| c_id := pretty t_id;
              c_text := txt;
              c_translation := translated;
              c_speaker := State.activeConversationSpeaker r;
              c_timestamp := t_stamp |} in
         setConversationHistory (fun prev => (prev ++ [newConversationItem])%list);;
         if State.aiConversationMode r
         then generateAIResponse r translated (fromLang r) (toLang r)
         else ret tt)
        (fun e =>
           console_error "Processing error";;
           Alert_alert "Error"
             "Failed to process audio. Check your API key and network.")
        (setIsLoading false)
  end.

(** [translateExtractedText], created by the render [r]. *)
Definition translateExtractedText (r : State.AppState) (txt : string)
    : M unit :=
  setIsLoading true;;
  tryCatchFinally
    (detectedSourceLang ←
       (if String.eqb (State.sourceLang r) "auto" then
          raw ← generateContent E (Prompt (ocrDetectPrompt txt));
          ret (toLowerCase E (JS.trim raw))
        else ret (State.sourceLang r));
     raw ← generateContent E
             (Prompt (ocrTranslatePrompt detectedSourceLang
                        (State.targetLang r) txt));
     let translated := cleanText raw in
     raw ← generateContent E
             (Prompt (ocrTipsPrompt detectedSourceLang (State.targetLang r)));
     let tips := ocrTipLines raw in
     setTranscribedText txt;;
     setTranslatedText translated;;
     setCulturalTips tips;;
     t_id ← Date_now E;
     t_stamp ← Date_now E;
     let newHistoryItem :=
       {| id := pretty t_id;
          transcribedText := txt;
          translatedText := translated;
          culturalTips := tips;
          sourceLang := detectedSourceLang;
          targetLang := State.targetLang r;
          timestamp := t_stamp;
          isFavorite := false |} in
     let updatedHistory := newHistoryItem :: State.history r in
     setHistory updatedHistory;;
     AsyncStorage_setItem E "translationHistory" (JSON_stringify updatedHistory))
    (fun e =>
       console_error "Translation error:";;
       Alert_alert "Error" "Failed to translate extracted text.")
    (setIsLoading false).

(** [processImageForOCR], created by the render [r]; [image] is what
    [fetch(imageUri)], [blob()] and [blobToBase64] give: the base64 data,
    or nothing when one of them rejects. *)
Definition processImageForOCR (r : State.AppState) (imageUri : string)
    (image : option string) : M unit :=
  setIsProcessingOCR true;;
  setOcrImage (Some imageUri);;
  setOcrText EmptyString;;
  tryCatchFinally
    (base64Data ← match image with
                  | Some data => ret data
                  | None => throw FetchError
                  end;
     raw ← generateContent E
             (PromptWithMedia extractPrompt "image/jpeg" base64Data);
     let extractedText := JS.trim raw in
     setOcrText extractedText;;
     if JS.truthy extractedText
     then translateExtractedText r extractedText
     else ret tt)
    (fun e =>
       console_error "OCR processing error:";;
       Alert_alert "Error"
         "Failed to process image. Check your API key and network connection.")
    (setIsProcessingOCR false).

(** ** The rendered controls *)

(** A [TouchableOpacity]: a disabled one ignores presses. *)
Record Touchable := mkTouchable {
  disabled : bool;
  onPress : M unit
}.

Definition press (t : Touchable) : M unit :=
  if disabled t then ret tt else onPress t.

(** The microphone button of the main view:
    [onPress={recording ? stopRecording : startRecording}],
    [disabled={isOffline}]. *)
Definition micButton (mic : Microphone) (r : State.AppState) : Touchable :=
  {| disabled := State.isOffline r;
     onPress := match State.recording r with
                | Some _ => stopRecording r
                | None => startRecording mic
                end |}.

(** The microphone button of the conversation view. *)
Definition conversationMicButton (mic : Microphone) (r : State.AppState)
    : Touchable :=
  {| disabled := State.isOffline r;
     onPress := match State.recording r with
                | Some _ => stopConversationRecording r
                | None => startConversationRecording mic
                end |}.

(** The translate button of the text input mode. *)
Definition translateButton (r : State.AppState) : Touchable :=
  {| disabled := State.isOffline r;
     onPress := translateText r |}.

(** [{isOffline && <Text>Offline Mode: Recording disabled.</Text>}] *)
Definition offlineBanner (r : State.AppState) : option string :=
  if State.isOffline r then Some "Offline Mode: Recording disabled." else None.

End Handlers.

(** A fresh start of the application over the storage left by [w]: the React
    state is lost, the storage is kept. *)
Definition restart (w : World) : World :=
  mkWorld State.initial (storage w) (now w) (calls w) (ios w) [] [] []
          (reads w).

(** ** Notions used to state the theorems *)

(** How the language of the source text is resolved by [translateText] when
    the next request has index [n]: the resolved language and the index of
    the request that follows, or nothing when detection is rejected. *)
Definition resolveSourceLang (E : Env) (r : State.AppState) (n : nat)
    : option (string * nat) :=
  if String.eqb (State.sourceLang r) "auto" then
    match respond E n (Prompt (detectPrompt (State.textToTranslate r))) with
    | Some raw => Some (toLowerCase E (JS.trim raw), S n)
    | None => None
    end
  else Some (State.sourceLang r, n).

(** An entry of the request log whose request was answered. *)
Definition succeeded (c : Request * option string) : bool :=
  match snd c with Some _ => true | None => false end.

(** An answer that counts as a failed call for the specification: the
    request is rejected, or its answer is empty once trimmed. *)
Definition failedAnswer (answer : option string) : bool :=
  match answer with
  | Some raw => negb (JS.truthy (JS.trim raw))
  | None => true
  end.

(** The requests made between the worlds [w] and [w']. *)
Definition newCalls (w w' : World) : list (Request * option string) :=
  drop (length (calls w)) (calls w').

(** The pipelines that detect the source language. *)
Inductive DetectingPipeline :=
  | TextInput
  | ExtractedText (txt : string).

Definition runDetecting (E : Env) (p : DetectingPipeline) : M unit :=
  match p with
  | TextInput => handle (translateText E)
  | ExtractedText txt => handle (fun r => translateExtractedText E r txt)
  end.

Definition detectionRequest (p : DetectingPipeline) (r : State.AppState)
    : Request :=
  match p with
  | TextInput => Prompt (detectPrompt (State.textToTranslate r))
  | ExtractedText txt => Prompt (ocrDetectPrompt txt)
  end.

(** [translateText] refuses blank text; [translateExtractedText] has no
    guard of its own. *)
Definition accepted (p : DetectingPipeline) (r : State.AppState) : bool :=
  match p with
  | TextInput => JS.truthy (JS.trim (State.textToTranslate r))
  | ExtractedText _ => true
  end.

(** The single-shot pipelines fed by the microphone and by the text
    field. *)
Inductive SingleShot := FromVoice | FromText.

Definition runSingleShot (E : Env) (p : SingleShot) : M unit :=
  match p with
  | FromVoice => handle (stopRecording E)
  | FromText => handle (translateText E)
  end.

(** What [loadHistory] finds under its key. *)
Definition persistedHistory (w : World) : list TranslationHistoryItem :=
  match storage w !! "@translation_history" with
  | Some (JsonHistory h) => h
  | _ => []
  end.

(** One turn of a conversation: some time passes, the speaker is chosen,
    the recording is made, and the microphone button is pressed again. *)
Record TurnInput := mkTurnInput {
  t_speaker : Speaker;
  t_pause : N;
  t_recording : Recording
}.

Definition conversationTurn (E : Env) (t : TurnInput) : M unit :=
  wait (t_pause t);;
  setActiveConversationSpeaker (t_speaker t);;
  startConversationRecording (RecordingCreated (t_recording t));;
  handle (stopConversationRecording E).

(** A sequence of turns, one handler after the other. *)
Definition converse (E : Env) (ts : list TurnInput) (w : World) : World :=
  fold_left (fun w t => exec (conversationTurn E t) w) ts w.

(** The human part of a turn succeeds: the recording stops and is read, and
    the transcription and translation requests are answered. *)
Definition humanTurnSucceeds (E : Env) (t : TurnInput) (w : World) : bool :=
  let r := State.with_activeConversationSpeaker (t_speaker t) (app w) in
  let n := length (calls w) in
  stopAndUnloadOk (t_recording t)
  && negb (JS.falsy (getURI (t_recording t)))
  && match fetched (t_recording t) with
     | Some audio =>
         match respond E n
                 (PromptWithMedia (transcribePrompt (fromLang r))
                    (orDefault (fst audio) "audio/m4a") (snd audio)) with
         | Some raw =>
             match respond E (S n)
                     (Prompt (translatePrompt (fromLang r) (toLang r)
                                (JS.trim raw))) with
             | Some _ => true
             | None => false
             end
         | None => false
         end
     | None => false
     end.

Fixpoint allTurnsSucceed (E : Env) (ts : list TurnInput) (w : World) : bool :=
  match ts with
  | [] => true
  | t :: ts' =>
      humanTurnSucceeds E t w
      && allTurnsSucceed E ts' (exec (conversationTurn E t) w)
  end.

(** The shape of a conversation made of the turns of the given speakers:
    each turn contributes the speaker's own item, possibly followed by a
    generated reply attributed to the opposite speaker and stamped later. *)
Inductive TurnBlocks : list Speaker -> list ConversationItem -> Prop :=
  | blocks_nil : TurnBlocks [] []
  | blocks_human sp sps human rest :
      c_speaker human = sp ->
      TurnBlocks sps rest ->
      TurnBlocks (sp :: sps) (human :: rest)
  | blocks_reply sp sps human reply rest :
      c_speaker human = sp ->
      c_speaker reply = opposite sp ->
      c_timestamp human < c_timestamp reply ->
      TurnBlocks sps rest ->
      TurnBlocks (sp :: sps) (human :: reply :: rest).

(** Stamps are increasing and none is more than a millisecond ahead of the
    clock. *)
Definition stampsInOrder (w : World) : Prop :=
  Sorted Z.lt (map c_timestamp (State.conversationHistory (app w)))
  /\ Forall (fun y => y <= now w + 1)
       (map c_timestamp (State.conversationHistory (app w))).

(** Identifiers are clock readings in decimal, none more than a millisecond
    ahead of the clock, and no two items carry the same one. *)
Definition idsInOrder (w : World) : Prop :=
  NoDup (map c_id (State.conversationHistory (app w)))
  /\ Forall (fun c => exists key, c_id c = pretty key /\ key <= now w + 1)
       (State.conversationHistory (app w)).

(** ** Concrete environments and worlds *)

(** A model that gives its n-th answer from a script (an absent or missing
    entry is a rejected request), takes [ms] milliseconds per request, over
    a storage that always works and a clock that stands still between two
    reads of a synchronous stretch.  Its case tables are those of the
    Latin-1 characters; the examples use ASCII text, on which the tables
    play no part. *)
Definition scripted (answers : list (option string)) (ms : N) : Env :=
  mkEnv (fun n _ => match answers !! n with Some a => a | None => None end)
        (fun _ => ms)
        (fun _ => true)
        (fun _ => 0%N)
        JS.lowerLatin1.

(** The application just started on an empty storage. *)
Definition freshWorld : World :=
  mkWorld State.initial ∅ 1700000000000 [] 0 [] [] [] 0.

(** The user has typed [txt] in the text field. *)
Definition typed (txt : string) (w : World) : World :=
  exec (setTextToTranslate txt) w.

(** The user has picked Auto-Detect as source language. *)
Definition autoDetect (w : World) : World := exec (setSourceLang "auto") w.

Definition sampleRecording : Recording :=
  mkRecording true (Some "file:///recording.m4a")
    (Some (Some "audio/m4a", "UklGRiQAAABXQVZF")).

(** A recording is in progress. *)
Definition recordingWorld (w : World) : World :=
  exec (startRecording (RecordingCreated sampleRecording)) w.

(** The connection has been lost. *)
Definition offline (w : World) : World := exec (setIsOffline true) w.

Definition morningEnv : Env :=
  scripted [Some "Buenos dias"; Some "1. Use formal greetings with elders"] 40.

Definition tipsFailEnv : Env := scripted [Some "Buenos dias"; None] 40.

Definition sentinelEnv : Env :=
  scripted [Some "auto"; Some "Buenos dias"; Some "1. Be polite"] 40.

Definition shoutedSentinelEnv : Env :=
  scripted [Some " AUTO "; Some "Exit"; Some "- Signs are bilingual"] 40.

Definition frenchEnv : Env :=
  scripted [Some (" FR" +:+ nl); Some "Hello"; Some "- Greet first"] 40.

Definition voiceFailEnv : Env := scripted [Some " Good morning "; None] 40.

(** The translation request is answered with the empty text. *)
Definition emptyTranslationEnv : Env :=
  scripted [Some " Good morning "; Some EmptyString; Some "1. Greet first"] 40.

(** The tips request is answered with the empty text. *)
Definition emptyTipsEnv : Env :=
  scripted [Some "Buenos dias"; Some EmptyString] 40.

Definition voiceEnv : Env :=
  scripted [Some "Bonjour"; Some "Hello"; Some "1. Greet first"] 40.

Definition replyFailEnv : Env := scripted [Some "Hello"; Some "Hola"; None] 40.

(** The reply request is answered with the empty text. *)
Definition emptyReplyEnv : Env :=
  scripted [Some "Hello"; Some "Hola"; Some EmptyString; Some EmptyString] 40.

Definition exitEnv : Env :=
  scripted [Some "Salida"; Some "- Follow the signs"] 40.

(** A text translation followed by the extraction of text from a picture. *)
Definition textThenPictureEnv : Env :=
  scripted [Some "Buenos dias"; Some "1. Use formal greetings with elders";
            Some "Exit"; Some "Salida"; Some "- Follow the signs"] 40.

Definition chatAnswers : list (option string) :=
  [Some "Hello"; Some "Hola"; Some "Como estas?"; Some "How are you?";
   Some "Bien"; Some "Fine"; Some "Great!"; Some "Genial!"].

Definition chatEnv : Env := scripted chatAnswers 120.

Definition instantChatEnv : Env := scripted chatAnswers 0.

Definition relaxedTurns : list TurnInput :=
  [mkTurnInput A 3000 sampleRecording; mkTurnInput B 2500 sampleRecording].

Definition hurriedTurns : list TurnInput :=
  [mkTurnInput A 1 sampleRecording; mkTurnInput B 1 sampleRecording].

Definition storedItem : TranslationHistoryItem :=
  mkItem "1700000000000" "Good morning" "Buenos dias" [] "en" "es"
    1700000000000 false.

(** A history of one record that is not a favourite, loaded and stored. *)
Definition oneRecordWorld : World :=
  mkWorld (State.with_history [storedItem] State.initial)
          {["@translation_history" := JsonHistory [storedItem]]}
          1700000060000 [] 0 [] [] [] 0.

(** ** The rest of [App] *)

(** *** String operations *)

(** [s.split(sep)] for a separator of one character. *)
Fixpoint split (sep : ascii) (s : string) : list string :=
  match s with
  | EmptyString => [EmptyString]
  | String c s' =>
      if Ascii.eqb c sep then EmptyString :: split sep s'
      else match split sep s' with
           | [] => [String c EmptyString]
           | p :: ps => String c p :: ps
           end
  end.

(** [s.startsWith(p)] *)
Definition startsWith (s p : string) : bool := String.prefix p s.

(** [s.includes(sub)] *)
Fixpoint includes (s sub : string) : bool :=
  String.prefix sub s
  || match s with
     | EmptyString => false
     | String _ s' => includes s' sub
     end.

(** [table[key]] on an object literal whose own keys are listed; the keys
    inherited from [Object.prototype] are not modelled. *)
Fixpoint property {V} (table : list (string * V)) (key : string) : option V :=
  match table with
  | [] => None
  | (k, v) :: rest => if String.eqb k key then Some v else property rest key
  end.

(** *** [blobToBase64] *)

(** [reader] is what [FileReader.readAsDataURL] produces: the data URL, or
    nothing when reading fails.  The promise resolves with
    [result.split(',')[1]], which is [undefined] when the result has no
    comma. *)
Definition blobToBase64 (reader : option string) : M (option string) :=
  match reader with
  | Some result => ret (split ","%char result !! 1%nat)
  | None => throw FetchError
  end.

(** *** The choice of a voice in [speak] *)

(** The constant [languageMap] of the Web Speech branch. *)
Definition languageMap : list (string * string) :=
  [("en", "en-US"); ("es", "es-ES"); ("fr", "fr-FR"); ("de", "de-DE");
   ("it", "it-IT"); ("pt", "pt-BR"); ("nl", "nl-NL"); ("ru", "ru-RU");
   ("ja", "ja-JP"); ("zh-CN", "zh-CN"); ("zh-TW", "zh-TW"); ("ko", "ko-KR");
   ("ar", "ar-SA"); ("hi", "hi-IN"); ("bn", "bn-BD"); ("ak", "en-US");
   ("gaa", "en-US")].

(** The constant [speechLanguageMap] of the Expo Speech branch. *)
Definition speechLanguageMap : list (string * list string) :=
  [("en", ["en-US"; "en-GB"; "en-AU"]);
   ("es", ["es-ES"; "es-MX"; "es-US"; "es-AR"]);
   ("fr", ["fr-FR"; "fr-CA"]);
   ("de", ["de-DE"; "de-AT"]);
   ("it", ["it-IT"]);
   ("pt", ["pt-BR"; "pt-PT"]);
   ("nl", ["nl-NL"; "nl-BE"]);
   ("ru", ["ru-RU"]);
   ("ja", ["ja-JP"]);
   ("zh-CN", ["zh-CN"; "zh"]);
   ("zh-TW", ["zh-TW"; "zh-HK"]);
   ("ko", ["ko-KR"]);
   ("ar", ["ar-SA"; "ar-AE"]);
   ("hi", ["hi-IN"]);
   ("bn", ["bn-BD"; "bn-IN"]);
   ("ak", ["en-US"]);
   ("gaa", ["en-US"])].

(** A [SpeechSynthesisVoice] of the browser. *)
Record WebVoice := mkWebVoice {
  voiceLang : string;
  voiceName : string
}.

(** [const speechLang = languageMap[language] || language] *)
Definition speechLang (language : string) : string :=
  orDefault (property languageMap language) language.

(** The first [voices.find] of the Web Speech branch. *)
Definition matchingWebVoice (E : Env) (voices : list WebVoice)
    (language : string)
    : option WebVoice :=
  List.find
    (fun voice =>
       startsWith (toLowerCase E (voiceLang voice))
         (toLowerCase E (speechLang language))
       || startsWith (toLowerCase E (voiceLang voice))
            (toLowerCase E language))
    voices.

(** The variable [selectedVoice] of the Web Speech branch when the
    utterance is configured: the first match, or for Spanish the broader
    match tried after it. *)
Definition selectedVoice (E : Env) (voices : list WebVoice)
    (language : string)
    : option WebVoice :=
  match matchingWebVoice E voices language with
  | Some voice => Some voice
  | None =>
      if String.eqb language "es" then
        List.find
          (fun voice => startsWith (toLowerCase E (voiceLang voice)) "es")
          voices
      else None
  end.

(** [const possibleLanguages = speechLanguageMap[language] || [language]] *)
Definition possibleLanguages (language : string) : list string :=
  match property speechLanguageMap language with
  | Some langs => langs
  | None => [language]
  end.

(** The [for] loop of the Expo Speech branch over the languages still to
    try: the first one that some available voice speaks.  A voice is given
    by its [language]. *)
Fixpoint firstSpoken (E : Env) (availableVoices : list string)
    (langs : list string)
    : option string :=
  match langs with
  | [] => None
  | lang :: rest =>
      if existsb
           (fun voice =>
              String.eqb (toLowerCase E voice) (toLowerCase E lang))
           availableVoices
      then Some lang
      else firstSpoken E availableVoices rest
  end.

(** The variable [selectedLanguage] of the Expo Speech branch when
    [Speech.speak] is called; nothing stands for [undefined]. *)
Definition selectedLanguage (E : Env) (availableVoices : list string)
    (language : string) : option string :=
  match firstSpoken E availableVoices (possibleLanguages language) with
  | Some lang => Some lang
  | None => head (possibleLanguages language)
  end.

(** *** The language picker *)

Inductive LangSlot := SourceSlot | TargetSlot.

(** The cells [modalVisible], [editingLang] and [searchTerm]. *)
Record LanguagePicker := mkPicker {
  modalVisible : bool;
  editingLang : option LangSlot;
  searchTerm : string
}.

(** An entry of the array [languages] of the module [./languages]. *)
Record LanguageOption := mkOption {
  label : string;
  value : string
}.

(** [openLangModal] *)
Definition openLangModal (type : LangSlot) (p : LanguagePicker)
    : LanguagePicker :=
  mkPicker true (Some type) EmptyString.

(** [onSelectLang], created by a render whose picker cells are [p]; it
    gives the picker cells it leaves. *)
Definition onSelectLang (p : LanguagePicker) (langValue : string)
    : M LanguagePicker :=
  match editingLang p with
  | Some SourceSlot => setSourceLang langValue
  | Some TargetSlot => setTargetLang langValue
  | None => ret tt
  end;;
  ret (mkPicker false (editingLang p) (searchTerm p)).

(** [enhancedLanguages], over the array [languages] of the missing module. *)
Definition enhancedLanguages (languages : list LanguageOption)
    : list LanguageOption :=
  mkOption "Auto-Detect" "auto" :: languages.

(** [filteredLanguages] *)
Definition filteredLanguages (E : Env) (languages : list LanguageOption)
    (p : LanguagePicker) : list LanguageOption :=
  List.filter
    (fun lang =>
       includes (toLowerCase E (label lang)) (toLowerCase E (searchTerm p)))
    (match editingLang p with
     | Some SourceSlot => enhancedLanguages languages
     | _ => languages
     end).

(** *** Connectivity, conversation reset and image picking *)

(** The [NetInfo] listener: [setIsOffline(!state.isConnected)], where
    [isConnected] may be [null]. *)
Definition onConnectivityChange (isConnected : option bool) : M unit :=
  setIsOffline
    (negb (match isConnected with Some b => b | None => false end)).

(** [clearConversation]: the dialog, then the button the user presses,
    Clear ([confirm]) or Cancel. *)
Definition clearConversation (confirm : bool) : M unit :=
  Alert_alert "Clear Conversation"
    "Are you sure you want to clear the conversation history?";;
  if confirm then setConversationHistory (fun _ => []) else ret tt.

(** A call that is not awaited: it runs, and the caller neither sees its
    result nor catches its rejection. *)
Definition notAwaited (m : M unit) : M unit :=
  fun w => (Resolved tt, snd (m w)).

(** What a permission request gives. *)
Inductive Permission := Granted | Denied | PermissionFailure.

(** What [ImagePicker.launchCameraAsync] or [launchImageLibraryAsync]
    gives: a cancelled result, a result without a first asset, a first
    asset with its URI (and what fetching that URI yields, as for
    [processImageForOCR]), or a rejection. *)
Inductive Launch :=
  | LaunchCanceled
  | LaunchNoAsset
  | LaunchAsset (uri : string) (image : option string)
  | LaunchFailure.

(** The button pressed in the dialog of [pickImageForOCR], with what the
    device then answers. *)
Inductive ImageSource :=
  | FromCamera (permission : Permission) (launch : Launch)
  | FromGallery (launch : Launch)
  | NoSource.

Section MoreHandlers.

Variable E : Env.

(** The part shared by [openCamera] and [openGallery] after the launch. *)
Definition afterLaunch (r : State.AppState) (launch : Launch) : M unit :=
  match launch with
  | LaunchFailure => throw FetchError
  | LaunchAsset uri image => notAwaited (processImageForOCR E r uri image)
  | LaunchCanceled | LaunchNoAsset => ret tt
  end.

(** [openGallery], created by the render [r]. *)
Definition openGallery (r : State.AppState) (launch : Launch) : M unit :=
  tryCatch
    (afterLaunch r launch)
    (fun e => console_error "Error opening gallery:";;
              Alert_alert "Error" "Failed to open gallery.").

(** [openCamera], created by the render [r]. *)
Definition openCamera (r : State.AppState) (permission : Permission)
    (launch : Launch) : M unit :=
  tryCatch
    (match permission with
     | PermissionFailure => throw RecordingError
     | Denied =>
         Alert_alert "Camera Permission Required"
           "Please allow camera access to take photos for translation."
     | Granted => afterLaunch r launch
     end)
    (fun e => console_error "Error opening camera:";;
              Alert_alert "Error" "Failed to open camera.").

(** [pickImageForOCR], created by the render [r]: the permission request,
    the dialog, and the handler of the button the user presses in it. *)
Definition pickImageForOCR (r : State.AppState) (permission : Permission)
    (choice : ImageSource) : M unit :=
  tryCatch
    (match permission with
     | PermissionFailure => throw RecordingError
     | Denied =>
         Alert_alert "Permission required"
           "Camera roll permissions are needed to pick images."
     | Granted =>
         Alert_alert "Select Image Source"
           "Choose how you want to select an image:";;
         notAwaited
           (match choice with
            | FromCamera cameraPermission launch =>
                openCamera r cameraPermission launch
            | FromGallery launch => openGallery r launch
            | NoSource => ret tt
            end)
     end)
    (fun e => console_error "Error requesting permissions:";;
              Alert_alert "Error" "Failed to request permissions.").

(** The button of the picture input mode. *)
Definition ocrButton (permission : Permission) (choice : ImageSource)
    (r : State.AppState) : Touchable :=
  {| disabled := State.isOffline r;
     onPress := pickImageForOCR r permission choice |}.

(** The star of a card of the history view; it is never disabled. *)
Definition favoriteButton (key : string) (r : State.AppState) : Touchable :=
  {| disabled := false;
     onPress := toggleFavorite E r key |}.

End MoreHandlers.

(** *** Notions used to state the theorems on the rest of [App] *)

(** The three pipelines that end in a record of the history. *)
Inductive Pipeline :=
  | VoicePipeline
  | TextPipeline
  | PicturePipeline (txt : string).

Definition runPipeline (E : Env) (p : Pipeline) : M unit :=
  match p with
  | VoicePipeline => handle (stopRecording E)
  | TextPipeline => handle (translateText E)
  | PicturePipeline txt => handle (fun r => translateExtractedText E r txt)
  end.

(** The alert of the [catch] block of each pipeline. *)
Definition pipelineAlert (p : Pipeline) : string * string :=
  match p with
  | VoicePipeline =>
      ("Error", "Failed to process audio. Check your API key and network.")
  | TextPipeline =>
      ("Error", "Failed to translate text. Check your API key and network.")
  | PicturePipeline _ => ("Error", "Failed to translate extracted text.")
  end.

(** The controls that need the network, as the render [r] draws them. *)
Inductive NetworkControl :=
  | MicControl (mic : Microphone)
  | TranslateControl
  | PictureControl (permission : Permission) (choice : ImageSource)
  | ConversationMicControl (mic : Microphone).

Definition control (E : Env) (c : NetworkControl) (r : State.AppState)
    : Touchable :=
  match c with
  | MicControl mic => micButton E mic r
  | TranslateControl => translateButton E r
  | PictureControl permission choice => ocrButton E permission choice r
  | ConversationMicControl mic => conversationMicButton E mic r
  end.

(** The characters of a string. *)
Fixpoint chars (s : string) : list ascii :=
  match s with
  | EmptyString => []
  | String c s' => c :: chars s'
  end.

(** ** Running a handler symbolically *)

Arguments transcribePrompt : simpl never.
Arguments translatePrompt : simpl never.
Arguments tipsPrompt : simpl never.
Arguments detectPrompt : simpl never.
Arguments ocrDetectPrompt : simpl never.
Arguments ocrTranslatePrompt : simpl never.
Arguments ocrTipsPrompt : simpl never.
Arguments responsePrompt : simpl never.

(** What is looked up in a world that is not known is written as a
    projection. *)
Ltac refold :=
  repeat match goal with
         | w : World |- _ =>
             progress fold (app w) (storage w) (now w) (calls w) (ios w)
                           (alerts w) (errors w) (timers w) (reads w)
         end.

(** Unfold the monad, the primitives and the setters, and look into the
    worlds built along the way. *)
Ltac unfold_M :=
  cbv [mbind M_bind M_ret mret bind ret throw tryCatch tryCatchFinally handle
       exec modifyApp wait Date_now Alert_alert console_error setTimeout_speak
       generateContent AsyncStorage_getItem AsyncStorage_setItem JSON_parse
       JSON_stringify setRecording setTranscribedText setTranslatedText
       setCulturalTips setIsLoading setSourceLang setTargetLang setIsOffline
       setHistory setView setInputMode setTextToTranslate
       setActiveConversationSpeaker setAiConversationMode setOcrImage
       setOcrText setIsProcessingOCR setConversationHistory
       saveTranslation stopAndUnloadAsync fetchAudio press
       app storage now calls ios alerts errors timers reads];
  refold.

(** Reduce the projections of the records built along the way. *)
Ltac proj :=
  cbn [app storage now calls ios alerts errors timers reads fst snd negb
       State.recording State.transcribedText State.translatedText
       State.culturalTips State.isLoading State.sourceLang State.targetLang
       State.isOffline State.history State.view State.inputMode
       State.textToTranslate State.conversationHistory
       State.activeConversationSpeaker State.aiConversationMode
       State.ocrImage State.ocrText State.isProcessingOCR
       State.with_recording State.with_transcribedText
       State.with_translatedText State.with_culturalTips
       State.with_isLoading State.with_sourceLang State.with_targetLang
       State.with_isOffline State.with_history State.with_view
       State.with_inputMode State.with_textToTranslate
       State.with_conversationHistory State.with_activeConversationSpeaker
       State.with_aiConversationMode State.with_ocrImage State.with_ocrText
       State.with_isProcessingOCR
       id transcribedText translatedText culturalTips sourceLang targetLang
       timestamp isFavorite d_transcribedText d_translatedText
       d_culturalTips d_sourceLang d_targetLang d_isFavorite
       c_id c_text c_translation c_speaker c_timestamp
       stopAndUnloadOk getURI fetched disabled onPress];
  refold.

(** The index of the next request after some were logged. *)
Ltac next_index :=
  repeat rewrite length_app; cbn [length]; repeat rewrite Nat.add_1_r.

(** Use the hypothesis [H] on the answer to the request now being made. *)
Ltac answer H := next_index; rewrite H; proj.

Lemma newCalls_app (l k : list (Request * option string)) :
  drop (length l) (l ++ k) = k.
Proof. apply drop_app_length. Qed.

(** Normalise the log of new requests in the goal. *)
Ltac new_calls :=
  unfold newCalls; proj;
  repeat rewrite <- app_assoc;
  rewrite ?newCalls_app, ?drop_all;
  cbn [app forallb succeeded snd andb].

Lemma truthy_spec (s : string) : JS.truthy s = true <-> s <> EmptyString.
Proof. destruct s; simpl; split; intros; congruence. Qed.

(** ** The history store *)

(** What [loadHistory] shows after a restart: the array kept under its key,
    or nothing when the key is absent, does not parse, or cannot be read. *)
Lemma loadHistory_after_restart (E : Env) (w : World) :
  State.history (app (exec (loadHistory E) (restart w)))
  = if storageOk E (ios w) then persistedHistory w else [].
Proof.
  unfold loadHistory, restart, persistedHistory. unfold_M. proj.
  destruct (storageOk E (ios w)); proj; [|reflexivity].
  destruct (storage w !! "@translation_history") as [[h|]|]; reflexivity.
Qed.

(** [saveTranslation] writes the new array under ["@translation_history"]
    and puts it in the history cell whether or not the write succeeds. *)
Lemma saveTranslation_effect (E : Env) (r : State.AppState)
    (d : TranslationDraft) (w : World) :
  let t_id := now w + Z.of_N (tick E (reads w)) in
  let t_stamp := t_id + Z.of_N (tick E (S (reads w))) in
  let item := mkItem (pretty t_id) (d_transcribedText d)
                (d_translatedText d) (d_culturalTips d) (d_sourceLang d)
                (d_targetLang d) t_stamp false in
  let w' := exec (saveTranslation E r d) w in
  State.history (app w') = item :: State.history r
  /\ storage w' =
     (if storageOk E (ios w)
      then <["@translation_history" := JsonHistory (item :: State.history r)]>
             (storage w)
      else storage w).
Proof.
  unfold_M. proj. destruct (storageOk E (ios w)); proj; split; reflexivity.
Qed.

(** The round trip through the store on the [saveTranslation] path: when
    the write and the read succeed, [loadHistory] gives back the array with
    the new record at its head. *)
Lemma saveTranslation_loadHistory (E : Env) (r : State.AppState)
    (d : TranslationDraft) (w : World) :
  storageOk E (ios w) = true ->
  storageOk E (S (ios w)) = true ->
  let t_id := now w + Z.of_N (tick E (reads w)) in
  let t_stamp := t_id + Z.of_N (tick E (S (reads w))) in
  State.history (app (exec (loadHistory E) (exec (saveTranslation E r d) w)))
  = mkItem (pretty t_id) (d_transcribedText d) (d_translatedText d)
      (d_culturalTips d) (d_sourceLang d) (d_targetLang d) t_stamp false
    :: State.history r.
Proof.
  intros Hw Hr t_id t_stamp. subst t_id t_stamp.
  unfold loadHistory. unfold_M. proj.
  rewrite Hw. proj. rewrite Hr. proj.
  rewrite lookup_insert_eq. reflexivity.
Qed.

(** What [toggleFavorite] leaves in the history cell. *)
Lemma toggleFavorite_history (E : Env) (w : World) (key : string) :
  State.history (app (exec (handle (fun r => toggleFavorite E r key)) w))
  = map (fun item =>
           if String.eqb (id item) key
           then mkItem (id item) (transcribedText item) (translatedText item)
                  (culturalTips item) (sourceLang item) (targetLang item)
                  (timestamp item) (negb (isFavorite item))
           else item)
        (State.history (app w)).
Proof.
  unfold toggleFavorite. unfold_M. proj.
  destruct (storageOk E (ios w)); proj; reflexivity.
Qed.

(** ** The text pipeline *)

(** C1, as the code has it.  When [translateText] runs on text that is not
    blank and every request it makes is answered, exactly one record is put
    at the head of the history cell; it is not a favourite, it carries the
    text, the target language and the resolved source language, and it is
    written under the key of the store when the storage operation succeeds.
    The resolved source language is the caller's unless that is the
    sentinel, and is then the cleaned answer of the detection request: it is
    the sentinel only when that answer is. *)
Theorem translateText_appends_one_record (E : Env) (w : World) :
  JS.trim (State.textToTranslate (app w)) <> EmptyString ->
  let w' := exec (handle (translateText E)) w in
  forallb succeeded (newCalls w w') = true ->
  exists item lang k,
    resolveSourceLang E (app w) (length (calls w)) = Some (lang, k)
    /\ State.history (app w') = item :: State.history (app w)
    /\ isFavorite item = false
    /\ sourceLang item = lang
    /\ transcribedText item = State.textToTranslate (app w)
    /\ targetLang item = State.targetLang (app w)
    /\ storage w' =
       (if storageOk E (ios w)
        then <["@translation_history" :=
                 JsonHistory (item :: State.history (app w))]> (storage w)
        else storage w)
    /\ (sourceLang item = "auto" ->
        State.sourceLang (app w) = "auto"
        /\ exists raw,
             respond E (length (calls w))
               (Prompt (detectPrompt (State.textToTranslate (app w))))
             = Some raw
             /\ toLowerCase E (JS.trim raw) = "auto").
Proof.
  intros Hne w'. subst w'.
  apply truthy_spec in Hne.
  unfold resolveSourceLang, translateText. unfold_M. rewrite Hne.
  destruct (String.eqb (State.sourceLang (app w)) "auto") eqn:Hauto; proj.
  - apply String.eqb_eq in Hauto.
    destruct (respond E (length (calls w))
                (Prompt (detectPrompt (State.textToTranslate (app w)))))
      as [raw|] eqn:Hd; proj; [|new_calls; discriminate].
    next_index.
    match goal with |- context [respond E ?n ?q] =>
      destruct (respond E n q) as [rawT|] eqn:Ht end;
      proj; [|new_calls; discriminate].
    next_index.
    match goal with |- context [respond E ?n ?q] =>
      destruct (respond E n q) as [rawTips|] eqn:Htips end;
      proj; [|new_calls; discriminate].
    intros _.
    destruct (storageOk E (ios w)); proj;
      (eexists _, _, _; repeat split; try reflexivity; eauto).
  - apply String.eqb_neq in Hauto.
    match goal with |- context [respond E ?n ?q] =>
      destruct (respond E n q) as [rawT|] eqn:Ht end;
      proj; [|new_calls; discriminate].
    next_index.
    match goal with |- context [respond E ?n ?q] =>
      destruct (respond E n q) as [rawTips|] eqn:Htips end;
      proj; [|new_calls; discriminate].
    intros _.
    destruct (storageOk E (ios w)); proj;
      (eexists _, _, _; repeat split; try reflexivity; try tauto).
Qed.

(** The theorem on the scenario of the specification: "Good morning", from
    English to Spanish. *)
Lemma translateText_appends_one_record_witness :
  JS.trim (State.textToTranslate (app (typed "Good morning" freshWorld)))
  <> EmptyString
  /\ exists item,
       State.history
         (app (exec (handle (translateText morningEnv))
                 (typed "Good morning" freshWorld)))
       = [item]
       /\ isFavorite item = false
       /\ sourceLang item = "en"
       /\ transcribedText item = "Good morning".
Proof.
  assert (H1 : JS.trim (State.textToTranslate
                          (app (typed "Good morning" freshWorld)))
               <> EmptyString) by (vm_compute; discriminate).
  split; [exact H1|].
  destruct (translateText_appends_one_record morningEnv
              (typed "Good morning" freshWorld) H1)
    as (item & lang & k & Hres & Hh & Hfav & Hsl & Htxt & _).
  { vm_compute. reflexivity. }
  exists item. vm_compute in Hres. injection Hres as <- _.
  repeat split; assumption.
Defined.

(** C1 fails as stated: with Auto-Detect chosen and a detection request
    answered with the sentinel itself, every request succeeds and the record
    stored has the sentinel as source language; and on text that is not
    empty but blank no request is made and no record is appended. *)
Lemma translateText_sentinel_counterexample :
  let w := typed "Good morning" (autoDetect freshWorld) in
  let w' := exec (handle (translateText sentinelEnv)) w in
  let blank := typed " " freshWorld in
  forallb succeeded (newCalls w w') = true
  /\ map sourceLang (State.history (app w')) = ["auto"]
  /\ State.textToTranslate (app blank) <> EmptyString
  /\ State.history (app (exec (handle (translateText morningEnv)) blank)) = [].
Proof.
  vm_compute. repeat split; try reflexivity. discriminate.
Qed.

(** ** Language detection *)

(** C2, as the code has it.  When a pipeline that detects the language
    ([translateText] or [translateExtractedText]) runs with the sentinel as
    source language, accepts its input, has its detection request answered
    by [raw] and every later request answered, the record put at the head of
    the history cell carries, as source language, [raw] trimmed and then
    lower-cased; this is the sentinel exactly when the cleaned answer
    is. *)
Theorem detected_language_is_stored (E : Env) (p : DetectingPipeline)
    (w : World) (raw : string) :
  State.sourceLang (app w) = "auto" ->
  accepted p (app w) = true ->
  respond E (length (calls w)) (detectionRequest p (app w)) = Some raw ->
  let w' := exec (runDetecting E p) w in
  forallb succeeded (newCalls w w') = true ->
  exists item,
    State.history (app w') = item :: State.history (app w)
    /\ sourceLang item = toLowerCase E (JS.trim raw)
    /\ (sourceLang item = "auto" <-> toLowerCase E (JS.trim raw) = "auto").
Proof.
  intros Hauto Hacc Hd w'. subst w'.
  apply String.eqb_eq in Hauto.
  destruct p as [|txt]; cbn [runDetecting detectionRequest accepted] in *.
  - unfold translateText. unfold_M. rewrite Hacc, Hauto. proj.
    rewrite Hd. proj. next_index.
    match goal with |- context [respond E ?n ?q] =>
      destruct (respond E n q) as [rawT|] eqn:Ht end;
      proj; [|new_calls; discriminate].
    next_index.
    match goal with |- context [respond E ?n ?q] =>
      destruct (respond E n q) as [rawTips|] eqn:Htips end;
      proj; [|new_calls; discriminate].
    intros _.
    destruct (storageOk E (ios w)); proj;
      (eexists; repeat split; try reflexivity; auto).
  - unfold translateExtractedText. unfold_M. rewrite Hauto. proj.
    rewrite Hd. proj. next_index.
    match goal with |- context [respond E ?n ?q] =>
      destruct (respond E n q) as [rawT|] eqn:Ht end;
      proj; [|new_calls; discriminate].
    next_index.
    match goal with |- context [respond E ?n ?q] =>
      destruct (respond E n q) as [rawTips|] eqn:Htips end;
      proj; [|new_calls; discriminate].
    intros _.
    destruct (storageOk E (ios w)); proj;
      (eexists; repeat split; try reflexivity; auto).
Qed.

(** The theorem on a picture whose text is detected as [" FR"] followed by
    a line feed: the record says ["fr"]. *)
Lemma detected_language_is_stored_witness :
  exists item,
    State.history
      (app (exec (runDetecting frenchEnv (ExtractedText "Bonjour"))
              (autoDetect freshWorld)))
    = [item]
    /\ sourceLang item = "fr".
Proof.
  destruct (detected_language_is_stored frenchEnv (ExtractedText "Bonjour")
              (autoDetect freshWorld) (" FR" +:+ nl))
    as (item & Hh & Hsl & _).
  - reflexivity.
  - reflexivity.
  - reflexivity.
  - vm_compute. reflexivity.
  - exists item. split; [exact Hh|]. rewrite Hsl. vm_compute. reflexivity.
Defined.

(** C2 fails as stated: on the picture path with Auto-Detect chosen and the
    detection request answered [" AUTO "], every request succeeds and the
    source language stored is the sentinel, which is also not the answer
    lower-cased (that keeps its spaces). *)
Lemma detected_sentinel_counterexample :
  let w := autoDetect freshWorld in
  let w' := exec (runDetecting shoutedSentinelEnv (ExtractedText "Salida")) w in
  respond shoutedSentinelEnv (length (calls w))
    (detectionRequest (ExtractedText "Salida") (app w)) = Some " AUTO "
  /\ forallb succeeded (newCalls w w') = true
  /\ map sourceLang (State.history (app w')) = ["auto"]
  /\ toLowerCase shoutedSentinelEnv " AUTO " <> "auto".
Proof.
  vm_compute. repeat split; try reflexivity. discriminate.
Qed.

(** The voice pipeline runs no detection: with Auto-Detect chosen it makes
    its three requests and stores the sentinel as source language. *)
Lemma voice_pipeline_keeps_sentinel :
  let w := recordingWorld (autoDetect freshWorld) in
  let w' := exec (handle (stopRecording voiceEnv)) w in
  map fst (calls w') =
    [PromptWithMedia (transcribePrompt "auto") "audio/m4a" "UklGRiQAAABXQVZF";
     Prompt (translatePrompt "auto" "es" "Bonjour");
     Prompt (tipsPrompt "es" "Hello")]
  /\ map sourceLang (State.history (app w')) = ["auto"].
Proof. vm_compute. split; reflexivity. Qed.

(** ** Favourites *)

(** C3, as the code has it.  The only operation on favourites is
    [toggleFavorite], which negates the flag: one call keeps every record in
    its place with its identifier and negates [isFavorite] on the records
    whose identifier is the given one, so no record is duplicated; two calls
    in a row give back the history they started from; and a call with an
    identifier that no record carries leaves the history as it is. *)
Theorem toggleFavorite_twice_restores (E : Env) (w : World) (key : string) :
  let w1 := exec (handle (fun r => toggleFavorite E r key)) w in
  let w2 := exec (handle (fun r => toggleFavorite E r key)) w1 in
  State.history (app w2) = State.history (app w)
  /\ map id (State.history (app w1)) = map id (State.history (app w))
  /\ (forall item, item ∈ State.history (app w) -> id item = key ->
        exists item', item' ∈ State.history (app w1)
                      /\ id item' = key
                      /\ isFavorite item' = negb (isFavorite item))
  /\ (key ∉ map id (State.history (app w)) ->
        State.history (app w1) = State.history (app w)).
Proof.
  intros w1 w2. subst w1 w2.
  rewrite !toggleFavorite_history.
  set (h := State.history (app w)). clearbody h.
  repeat split.
  - induction h as [|item h IH]; [reflexivity|].
    cbn [map]. rewrite IH. f_equal.
    destruct (String.eqb (id item) key) eqn:Hk; proj; rewrite Hk.
    + destruct item; proj. rewrite negb_involutive. reflexivity.
    + reflexivity.
  - induction h as [|item h IH]; [reflexivity|].
    cbn [map]. rewrite IH. f_equal.
    destruct (String.eqb (id item) key); reflexivity.
  - intros item Hin Hid.
    eexists. split.
    + apply list_elem_of_fmap. exists item. split; [reflexivity|exact Hin].
    + apply String.eqb_eq in Hid. rewrite Hid. proj.
      apply String.eqb_eq in Hid. auto.
  - intros Hnot.
    induction h as [|item h IH]; [reflexivity|].
    cbn [map]. rewrite IH.
    + destruct (String.eqb (id item) key) eqn:Hk; [|reflexivity].
      apply String.eqb_eq in Hk. exfalso. apply Hnot.
      cbn [map]. rewrite Hk. left.
    + intros Hin. apply Hnot. cbn [map]. right. exact Hin.
Qed.

(** C3 fails as stated: two calls in a row on a record that is not a
    favourite leave it not a favourite. *)
Lemma toggleFavorite_twice_counterexample :
  let toggle := handle (fun r => toggleFavorite morningEnv r "1700000000000") in
  map id (State.history (app oneRecordWorld)) = ["1700000000000"]
  /\ map isFavorite
       (State.history (app (exec toggle (exec toggle oneRecordWorld))))
     = [false].
Proof. vm_compute. split; reflexivity. Qed.

(** ** The round trip through the store *)

(** C4 on the picture path.  After a text translation, the text of a
    picture is extracted and translated: its record heads the history cell,
    but [loadHistory] then gives back the array without it, whose first
    element is the earlier record. *)
Theorem ocr_append_then_load_loses_record :
  let w1 := exec (handle (translateText textThenPictureEnv))
              (typed "Good morning" freshWorld) in
  let w2 := exec (handle (fun r =>
                    processImageForOCR textThenPictureEnv r
                      "file:///photo.jpg" (Some "/9j/4AAQSkZJRg")))
              w1 in
  let w3 := exec (loadHistory textThenPictureEnv) w2 in
  map transcribedText (State.history (app w2)) = ["Exit"; "Good morning"]
  /\ alerts w2 = [] /\ errors w2 = []
  /\ map transcribedText (State.history (app w3)) = ["Good morning"]
  /\ map transcribedText (persistedHistory w2) = ["Good morning"].
Proof.
  vm_compute. repeat split; reflexivity.
Qed.

(** ** Failure of the translation in the voice pipeline *)

(** C5, as the code has it.  When [stopRecording] has its recording
    stopped and read and the transcription request answered, and the
    translation request is then rejected, no record is appended: the
    history cell and the storage are as before, while the transcript
    obtained before the failure stays in the [transcribedText] cell for
    display. *)
Theorem stopRecording_translation_failure (E : Env) (w : World)
    (rec : Recording) (audio : option string * string) (raw : string) :
  State.recording (app w) = Some rec ->
  stopAndUnloadOk rec = true ->
  JS.falsy (getURI rec) = false ->
  fetched rec = Some audio ->
  respond E (length (calls w))
    (PromptWithMedia (transcribePrompt (State.sourceLang (app w)))
       (orDefault (fst audio) "audio/m4a") (snd audio)) = Some raw ->
  respond E (S (length (calls w)))
    (Prompt (translatePrompt (State.sourceLang (app w))
               (State.targetLang (app w)) (JS.trim raw))) = None ->
  let w' := exec (handle (stopRecording E)) w in
  State.history (app w') = State.history (app w)
  /\ storage w' = storage w
  /\ State.transcribedText (app w') = JS.trim raw
  /\ State.translatedText (app w') = EmptyString
  /\ State.culturalTips (app w') = []
  /\ alerts w' =
     (alerts w ++
      [("Error", "Failed to process audio. Check your API key and network.")])%list.
Proof.
  intros Hrec Hstop Huri Hfetch Htr Htl.
  unfold stopRecording. unfold_M.
  rewrite Hrec, Hstop, Huri, Hfetch. proj.
  answer Htr. answer Htl. repeat split; reflexivity.
Qed.

(** The theorem on a recording transcribed as [" Good morning "] whose
    translation is rejected. *)
Lemma stopRecording_translation_failure_witness :
  let w := recordingWorld freshWorld in
  let w' := exec (handle (stopRecording voiceFailEnv)) w in
  State.history (app w') = State.history (app w)
  /\ storage w' = storage w
  /\ State.transcribedText (app w') = "Good morning".
Proof.
  intros w w'.
  destruct (stopRecording_translation_failure voiceFailEnv w sampleRecording
              (Some "audio/m4a", "UklGRiQAAABXQVZF") " Good morning ")
    as (Hh & Hst & Htr & _); try reflexivity.
  split; [exact Hh|]. split; [exact Hst|exact Htr].
Defined.

(** C5 fails as stated: the transcription request succeeds and the
    translation request fails by returning the empty text; the code does
    not look at the answer, asks for the tips of the empty translation and
    appends a record whose translation is empty, without any alert. *)
Lemma stopRecording_empty_translation_counterexample :
  let w := recordingWorld freshWorld in
  let w' := exec (handle (stopRecording emptyTranslationEnv)) w in
  calls w' =
    [(PromptWithMedia (transcribePrompt "en") "audio/m4a" "UklGRiQAAABXQVZF",
      Some " Good morning ");
     (Prompt (translatePrompt "en" "es" "Good morning"), Some EmptyString);
     (Prompt (tipsPrompt "es" EmptyString), Some "1. Greet first")]
  /\ failedAnswer (Some EmptyString) = true
  /\ State.history (app w) = []
  /\ map transcribedText (State.history (app w')) = ["Good morning"]
  /\ map translatedText (State.history (app w')) = [EmptyString]
  /\ map transcribedText (persistedHistory w') = ["Good morning"]
  /\ alerts w' = [].
Proof. vm_compute. repeat split; reflexivity. Qed.

(** ** Offline *)

(** C6, as the code has it.  While the application is offline the
    microphone button is disabled: pressing it runs no handler, so nothing
    at all changes (no request is made, the history, the storage and the
    alerts are as before) and the press resolves without an error; the only
    sign of the offline state is the banner of the main view. *)
Theorem offline_mic_press_is_ignored (E : Env) (mic : Microphone)
    (w : World) :
  State.isOffline (app w) = true ->
  handle (fun r => press (micButton E mic r)) w = (Resolved tt, w)
  /\ offlineBanner (app w) = Some "Offline Mode: Recording disabled.".
Proof.
  intros Hoff. unfold handle, press, micButton, offlineBanner.
  proj. rewrite Hoff. split; reflexivity.
Qed.

(** The theorem on a recording in progress when the connection is lost. *)
Lemma offline_mic_press_is_ignored_witness :
  let w := offline (recordingWorld freshWorld) in
  State.isOffline (app w) = true
  /\ handle (fun r => press (micButton voiceFailEnv PermissionDenied r)) w
     = (Resolved tt, w).
Proof.
  intros w. split; [reflexivity|].
  apply (offline_mic_press_is_ignored voiceFailEnv PermissionDenied w).
  reflexivity.
Defined.

(** C6 fails as stated: offline, with a recording in progress, the press on
    the microphone button resolves and changes nothing, so no offline error
    is raised (no alert, no console line); and [stopRecording] itself,
    which checks no connectivity, makes the transcription request when it
    is run in that state. *)
Lemma offline_stop_counterexample :
  let w := offline (recordingWorld freshWorld) in
  State.isOffline (app w) = true
  /\ handle (fun r => press (micButton voiceFailEnv PermissionDenied r)) w
     = (Resolved tt, w)
  /\ alerts w = [] /\ errors w = []
  /\ length (calls (exec (handle (stopRecording voiceFailEnv)) w)) = 2%nat
  /\ alerts (exec (handle (stopRecording voiceFailEnv)) w)
     = [("Error", "Failed to process audio. Check your API key and network.")].
Proof. vm_compute. repeat split; reflexivity. Qed.

(** ** Failure of the cultural tips *)

(** The last request logged is not the tips request assumed. *)
Ltac not_the_tips_request :=
  new_calls; cbn [last];
  let H := fresh "H" in
  intros H; exfalso;
  solve [ discriminate H
        | injection H; unfold translatePrompt, detectPrompt, tipsPrompt;
          cbn [String.append]; discriminate ].

Lemma tipLines_empty (raw : string) :
  failedAnswer (Some raw) = true -> tipLines raw = [].
Proof.
  unfold failedAnswer, tipLines. intros H.
  destruct (JS.trim raw); [reflexivity|discriminate H].
Qed.

(** The tips request was last, and its answer was the failed one assumed:
    settle what the run leaves. *)
Ltac tips_request_was_last lang rawT :=
  new_calls; cbn [last];
  let H := fresh "H" in
  let Hfail := fresh "Hfail" in
  intros H Hfail; injection H as _ <-;
  try rewrite (tipLines_empty _ Hfail);
  split; [reflexivity|];
  split;
    [ exists lang, rawT; split; [|reflexivity];
      new_calls; apply list_elem_of_In; cbn; auto
    | repeat split; try reflexivity ].

(** C7, as the code has it.  In the voice and text pipelines
    ([stopRecording], [translateText]) the cultural-tips request stands in
    the same [try] block as the requests before it.  When the last request
    of an invocation is the tips request and it fails, the tips on display
    are empty and the translation already obtained, the cleaned answer of
    the translation request, is on display.  If the failure is an empty
    answer, the invocation goes on: a record with no tips and that
    translation is put at the head of the history and written to the store,
    and no alert is raised.  If the request is rejected, the invocation is
    abandoned: no record is appended (the history cell and the storage are
    unchanged) and the error alert of the pipeline is raised. *)
Theorem tips_failure_outcome (E : Env) (p : SingleShot) (w : World)
    (translated : string) (answer : option string) :
  let w' := exec (runSingleShot E p) w in
  last (newCalls w w')
  = Some (Prompt (tipsPrompt (State.targetLang (app w)) translated), answer) ->
  failedAnswer answer = true ->
  State.culturalTips (app w') = []
  /\ (exists lang rawT,
        (Prompt (translatePrompt lang (State.targetLang (app w))
                   (State.transcribedText (app w'))), Some rawT)
        ∈ newCalls w w'
        /\ State.translatedText (app w') = cleanText rawT)
  /\ match answer with
     | Some _ =>
         alerts w' = alerts w
         /\ exists item,
              State.history (app w') = item :: State.history (app w)
              /\ culturalTips item = []
              /\ translatedText item = State.translatedText (app w')
              /\ transcribedText item = State.transcribedText (app w')
              /\ isFavorite item = false
              /\ storage w' =
                 (if storageOk E (ios w)
                  then <["@translation_history" :=
                           JsonHistory (item :: State.history (app w))]>
                         (storage w)
                  else storage w)
     | None =>
         State.history (app w') = State.history (app w)
         /\ storage w' = storage w
         /\ alerts w' =
            (alerts w ++
             [("Error",
               match p with
               | FromVoice =>
                   "Failed to process audio. Check your API key and network."
               | FromText =>
                   "Failed to translate text. Check your API key and network."
               end)])%list
     end.
Proof.
  intros w'. subst w'. destruct p; cbn [runSingleShot].
  - unfold stopRecording. unfold_M. proj.
    destruct (State.recording (app w)) as [rec|]; proj;
      [|not_the_tips_request].
    destruct (stopAndUnloadOk rec); proj; [|not_the_tips_request].
    destruct (JS.falsy (getURI rec)); proj; [not_the_tips_request|].
    destruct (fetched rec) as [audio|]; proj; [|not_the_tips_request].
    match goal with |- context [respond E ?n ?q] =>
      destruct (respond E n q) as [raw|] eqn:Hr end;
      proj; [|not_the_tips_request].
    next_index.
    match goal with |- context [respond E ?n ?q] =>
      destruct (respond E n q) as [rawT|] eqn:Ht end;
      proj; [|not_the_tips_request].
    next_index.
    match goal with |- context [respond E ?n ?q] =>
      destruct (respond E n q) as [rawTips|] eqn:Htips end;
      proj.
    + destruct (storageOk E (ios w)); proj;
        tips_request_was_last (State.sourceLang (app w)) rawT;
        eexists; repeat split; reflexivity.
    + tips_request_was_last (State.sourceLang (app w)) rawT.
  - unfold translateText. unfold_M. proj.
    destruct (JS.truthy (JS.trim (State.textToTranslate (app w)))); proj;
      [|not_the_tips_request].
    destruct (String.eqb (State.sourceLang (app w)) "auto"); proj.
    + match goal with |- context [respond E ?n ?q] =>
        destruct (respond E n q) as [raw|] eqn:Hr end;
        proj; [|not_the_tips_request].
      next_index.
      match goal with |- context [respond E ?n ?q] =>
        destruct (respond E n q) as [rawT|] eqn:Ht end;
        proj; [|not_the_tips_request].
      next_index.
      match goal with |- context [respond E ?n ?q] =>
        destruct (respond E n q) as [rawTips|] eqn:Htips end;
        proj.
      * destruct (storageOk E (ios w)); proj;
          tips_request_was_last (toLowerCase E (JS.trim raw)) rawT;
          eexists; repeat split; reflexivity.
      * tips_request_was_last (toLowerCase E (JS.trim raw)) rawT.
    + match goal with |- context [respond E ?n ?q] =>
        destruct (respond E n q) as [rawT|] eqn:Ht end;
        proj; [|not_the_tips_request].
      next_index.
      match goal with |- context [respond E ?n ?q] =>
        destruct (respond E n q) as [rawTips|] eqn:Htips end;
        proj.
      * destruct (storageOk E (ios w)); proj;
          tips_request_was_last (State.sourceLang (app w)) rawT;
          eexists; repeat split; reflexivity.
      * tips_request_was_last (State.sourceLang (app w)) rawT.
Qed.

(** The theorem on "Good morning" when the tips request is answered with
    the empty text: the record is appended, without tips. *)
Lemma tips_failure_outcome_witness :
  let w := typed "Good morning" freshWorld in
  let w' := exec (runSingleShot emptyTipsEnv FromText) w in
  State.culturalTips (app w') = []
  /\ alerts w' = alerts w
  /\ exists item,
       State.history (app w') = item :: State.history (app w)
       /\ culturalTips item = [].
Proof.
  intros w w'.
  destruct (tips_failure_outcome emptyTipsEnv FromText w "Buenos dias"
              (Some EmptyString))
    as (Htips & _ & Hal & item & Hh & Hnone & _).
  - vm_compute. reflexivity.
  - reflexivity.
  - split; [exact Htips|]. split; [exact Hal|].
    exists item. split; [exact Hh|exact Hnone].
Defined.

(** C7 fails as stated: the text is accepted, the translation request
    succeeds and the tips request is rejected; no record is appended and the
    error alert is raised. *)
Lemma tips_failure_counterexample :
  let w := typed "Good morning" freshWorld in
  let w' := exec (handle (translateText tipsFailEnv)) w in
  calls w' =
    [(Prompt (translatePrompt "en" "es" "Good morning"), Some "Buenos dias");
     (Prompt (tipsPrompt "es" "Buenos dias"), None)]
  /\ State.history (app w') = []
  /\ storage w' = ∅
  /\ alerts w' =
     [("Error", "Failed to translate text. Check your API key and network.")].
Proof. vm_compute. repeat split; reflexivity. Qed.

(** ** Failure of the generated reply *)

(** The item appended first to the conversation of [w] in the goal. *)
Ltac pick_human :=
  match goal with
  | |- context [(State.conversationHistory (app ?w) ++ [?h])%list] => exists h
  end.

(** C8, as the code has it.  In a conversation turn whose transcription
    and translation succeed while the reply generation, or the translation
    of the reply back, fails, the failure stays inside
    [generateAIResponse]: the handler resolves, the human turn is appended
    to the previous conversation and no alert is raised.  When the failing
    request is rejected nothing follows the human turn and no speech is
    scheduled.  When the failure is an empty answer the reply is appended
    all the same, attributed to the other speaker, with the cleaned answers
    as its text and translation, and it is scheduled to be spoken. *)
Theorem conversation_reply_failure_swallowed (E : Env) (w : World)
    (rec : Recording) (audio : option string * string)
    (raw1 raw2 : string) (reply back : option string) :
  let r := app w in
  let n := length (calls w) in
  State.recording r = Some rec ->
  stopAndUnloadOk rec = true ->
  JS.falsy (getURI rec) = false ->
  fetched rec = Some audio ->
  State.aiConversationMode r = true ->
  respond E n
    (PromptWithMedia (transcribePrompt (fromLang r))
       (orDefault (fst audio) "audio/m4a") (snd audio)) = Some raw1 ->
  respond E (S n)
    (Prompt (translatePrompt (fromLang r) (toLang r) (JS.trim raw1)))
    = Some raw2 ->
  respond E (S (S n))
    (Prompt (responsePrompt (JS.trim raw2) (conversationContext r)
               (toLang r))) = reply ->
  (forall raw3, reply = Some raw3 ->
     respond E (S (S (S n)))
       (Prompt (translatePrompt (toLang r) (fromLang r) (cleanText raw3)))
     = back) ->
  failedAnswer reply || failedAnswer back = true ->
  exists w' human,
    handle (stopConversationRecording E) w = (Resolved tt, w')
    /\ c_speaker human = State.activeConversationSpeaker r
    /\ c_text human = JS.trim raw1
    /\ c_translation human = JS.trim raw2
    /\ alerts w' = alerts w
    /\ match reply, back with
       | Some raw3, Some raw4 =>
           exists item,
             State.conversationHistory (app w')
             = (State.conversationHistory r ++ [human; item])%list
             /\ c_speaker item = opposite (State.activeConversationSpeaker r)
             /\ c_text item = cleanText raw3
             /\ c_translation item = cleanText raw4
             /\ timers w' = (timers w ++ [(cleanText raw3, toLang r)])%list
             /\ errors w' = errors w
       | _, _ =>
           State.conversationHistory (app w')
           = (State.conversationHistory r ++ [human])%list
           /\ timers w' = timers w
           /\ errors w' = (errors w ++ ["AI Response error"])%list
       end.
Proof.
  intros r n Hrec Hstop Huri Hfetch Hai Htr Htl Hreply Hback _.
  subst r n.
  unfold stopConversationRecording, generateAIResponse. unfold_M.
  rewrite Hrec, Hstop, Huri, Hfetch, Hai. proj.
  answer Htr. answer Htl. answer Hreply.
  destruct reply as [raw3|]; proj.
  - specialize (Hback raw3 eq_refl). answer Hback.
    destruct back as [raw4|]; proj.
    + eexists. pick_human. split; [reflexivity|]. proj.
      repeat (split; [reflexivity|]).
      eexists. rewrite <- app_assoc. split; [reflexivity|]. proj.
      split; [destruct (State.activeConversationSpeaker (app w)); reflexivity|].
      repeat split; reflexivity.
    + eexists. pick_human. repeat split; reflexivity.
  - eexists. pick_human. destruct back; repeat split; reflexivity.
Qed.

(** The theorem on a turn whose reply request is rejected. *)
Lemma conversation_reply_failure_swallowed_witness :
  let w := recordingWorld freshWorld in
  exists w' human,
    handle (stopConversationRecording replyFailEnv) w = (Resolved tt, w')
    /\ State.conversationHistory (app w') = [human]
    /\ c_text human = "Hello"
    /\ alerts w' = [].
Proof.
  intros w.
  destruct (conversation_reply_failure_swallowed replyFailEnv w
              sampleRecording (Some "audio/m4a", "UklGRiQAAABXQVZF")
              "Hello" "Hola" None None)
    as (w' & human & Hrun & _ & Htxt & _ & Hal & Hconv & _);
    try reflexivity.
  exists w', human. repeat split; assumption.
Defined.

(** C8 fails as stated: the transcription and the translation succeed and
    the reply generation fails by returning the empty text; the reply is
    appended to the conversation with an empty text, attributed to the other
    speaker, and it is scheduled to be spoken. *)
Lemma conversation_empty_reply_counterexample :
  let w := recordingWorld freshWorld in
  let w' := exec (handle (stopConversationRecording emptyReplyEnv)) w in
  map snd (calls w')
  = [Some "Hello"; Some "Hola"; Some EmptyString; Some EmptyString]
  /\ failedAnswer (Some EmptyString) = true
  /\ State.aiConversationMode (app w) = true
  /\ map c_speaker (State.conversationHistory (app w')) = [A; B]
  /\ map c_text (State.conversationHistory (app w')) = ["Hello"; EmptyString]
  /\ timers w' = [(EmptyString, "es")].
Proof. vm_compute. repeat split; reflexivity. Qed.

(** ** Conversations *)

Lemma converse_cons (E : Env) (t : TurnInput) (ts : list TurnInput)
    (w : World) :
  converse E (t :: ts) w = converse E ts (exec (conversationTurn E t) w).
Proof. reflexivity. Qed.

(** One successful human turn with replies enabled: the speaker's item is
    appended, identified by a clock reading no earlier than the pause allows
    and stamped no earlier than that reading, and either nothing else, or a
    reply of the opposite speaker, identified by a later reading and stamped
    one millisecond after the clock of its creation. *)
Lemma conversationTurn_effect (E : Env) (t : TurnInput) (w : World) :
  State.aiConversationMode (app w) = true ->
  humanTurnSucceeds E t w = true ->
  let w' := exec (conversationTurn E t) w in
  exists human key,
    c_speaker human = t_speaker t
    /\ c_id human = pretty key
    /\ now w + Z.of_N (t_pause t) <= key <= c_timestamp human
    /\ State.aiConversationMode (app w') = true
    /\ ((State.conversationHistory (app w')
         = (State.conversationHistory (app w) ++ [human])%list
         /\ c_timestamp human <= now w')
        \/ exists reply replyKey,
             State.conversationHistory (app w')
             = (State.conversationHistory (app w) ++ [human; reply])%list
             /\ c_speaker reply = opposite (t_speaker t)
             /\ c_id reply = pretty replyKey
             /\ c_timestamp human < replyKey <= c_timestamp reply
             /\ c_timestamp reply = now w' + 1).
Proof.
  intros Hai Hok.
  unfold humanTurnSucceeds, fromLang, toLang in Hok. proj. revert Hok. proj.
  unfold conversationTurn, startConversationRecording,
    stopConversationRecording, generateAIResponse, fromLang, toLang.
  unfold_M. proj.
  destruct (stopAndUnloadOk (t_recording t)); [|discriminate].
  destruct (JS.falsy (getURI (t_recording t))); [discriminate|].
  destruct (fetched (t_recording t)) as [audio|]; [|discriminate].
  proj. cbn [andb].
  match goal with |- context [respond E ?n ?q] =>
    destruct (respond E n q) as [raw1|] eqn:H1 end; [|discriminate].
  proj. next_index.
  match goal with |- context [respond E ?n ?q] =>
    destruct (respond E n q) as [raw2|] eqn:H2 end; [|discriminate].
  intros _. proj. rewrite Hai. proj. next_index.
  match goal with |- context [respond E ?n ?q] =>
    destruct (respond E n q) as [raw3|] eqn:H3 end; proj.
  - next_index.
    match goal with |- context [respond E ?n ?q] =>
      destruct (respond E n q) as [raw4|] eqn:H4 end; proj.
    + pick_human. eexists. proj. split; [reflexivity|].
      split; [reflexivity|]. split; [lia|]. split; [exact Hai|].
      right. eexists _, _. rewrite <- app_assoc. split; [reflexivity|]. proj.
      split; [destruct (t_speaker t); reflexivity|].
      split; [reflexivity|]. split; lia.
    + pick_human. eexists. proj. split; [reflexivity|].
      split; [reflexivity|]. split; [lia|]. split; [exact Hai|].
      left. split; [reflexivity|]. lia.
  - pick_human. eexists. proj. split; [reflexivity|].
    split; [reflexivity|]. split; [lia|]. split; [exact Hai|].
    left. split; [reflexivity|]. lia.
Qed.

Lemma TurnBlocks_length (sps : list Speaker) (h : list ConversationItem) :
  TurnBlocks sps h -> (length sps <= length h <= 2 * length sps)%nat.
Proof. induction 1; cbn [length]; lia. Qed.

(** The conversation after successful turns is the one before, followed by
    one block per turn. *)
Lemma converse_blocks (E : Env) (ts : list TurnInput) :
  forall w,
    State.aiConversationMode (app w) = true ->
    allTurnsSucceed E ts w = true ->
    exists h,
      State.conversationHistory (app (converse E ts w))
      = (State.conversationHistory (app w) ++ h)%list
      /\ TurnBlocks (map t_speaker ts) h.
Proof.
  induction ts as [|t ts IH]; intros w Hai Hall.
  - exists []. split; [symmetry; apply app_nil_r|constructor].
  - cbn [allTurnsSucceed] in Hall. apply andb_prop in Hall as [Ht Hts].
    destruct (conversationTurn_effect E t w Hai Ht)
      as (human & key & Hsp & _ & _ & Hai' & Hcase).
    destruct (IH _ Hai' Hts) as (h & Hh & Hblocks).
    rewrite converse_cons, Hh.
    destruct Hcase
      as [[Hconv _] | (reply & replyKey & Hconv & Hrsp & _ & Hlt & _)];
      rewrite Hconv, <- app_assoc.
    + eexists. split; [reflexivity|].
      cbn [map app]. apply blocks_human; assumption.
    + eexists. split; [reflexivity|].
      cbn [map app]. apply blocks_reply; try assumption. lia.
Qed.

Lemma Sorted_snoc (l : list Z) (x : Z) :
  Sorted Z.lt l -> Forall (fun y => y < x) l -> Sorted Z.lt (l ++ [x]).
Proof.
  induction l as [|a l IH]; intros Hs Hall.
  - repeat constructor.
  - apply Sorted_inv in Hs as [Hs Hhd].
    apply Forall_cons in Hall as [Ha Hall].
    cbn [app]. constructor; [apply IH; assumption|].
    destruct l as [|b l]; cbn [app]; constructor.
    + exact Ha.
    + apply HdRel_inv in Hhd. exact Hhd.
Qed.

Lemma converse_stamps (E : Env) (ts : list TurnInput) :
  forall w,
    State.aiConversationMode (app w) = true ->
    allTurnsSucceed E ts w = true ->
    Forall (fun t => (2 <= t_pause t)%N) ts ->
    stampsInOrder w ->
    stampsInOrder (converse E ts w).
Proof.
  induction ts as [|t ts IH]; intros w Hai Hall Hpause Hinv; [exact Hinv|].
  cbn [allTurnsSucceed] in Hall. apply andb_prop in Hall as [Ht Hts].
  apply Forall_cons in Hpause as [Hp Hpause].
  destruct (conversationTurn_effect E t w Hai Ht)
    as (human & key & _ & _ & Hlow & Hai' & Hcase).
  rewrite converse_cons. apply IH; try assumption.
  destruct Hinv as [Hsorted Hbound].
  assert (Hbelow : Forall (fun y => y < c_timestamp human)
                     (map c_timestamp (State.conversationHistory (app w)))).
  { eapply Forall_impl; [exact Hbound|]. cbn beta. intros y Hy. lia. }
  unfold stampsInOrder.
  destruct Hcase
    as [[Hconv Hup] | (reply & replyKey & Hconv & _ & _ & Hlt & Hstamp)];
    rewrite Hconv, map_app; cbn [map].
  - split.
    + apply Sorted_snoc; assumption.
    + apply Forall_app. split.
      * eapply Forall_impl; [exact Hbelow|]. cbn beta. intros y Hy. lia.
      * repeat constructor. lia.
  - replace [c_timestamp human; c_timestamp reply]
      with ([c_timestamp human] ++ [c_timestamp reply])%list by reflexivity.
    rewrite app_assoc. split.
    + apply Sorted_snoc; [apply Sorted_snoc; assumption|].
      apply Forall_app. split.
      * eapply Forall_impl; [exact Hbelow|]. cbn beta. intros y Hy. lia.
      * repeat constructor. lia.
    + apply Forall_app. split; [apply Forall_app; split|].
      * eapply Forall_impl; [exact Hbelow|]. cbn beta. intros y Hy. lia.
      * repeat constructor. lia.
      * repeat constructor. lia.
Qed.

(** C9, as the code has it.  Starting from an empty conversation with
    replies enabled, after a sequence of turns whose human part succeeds the
    conversation has between one and two items per turn and is made of one
    block per turn: the speaker's item, then possibly a reply attributed to
    the opposite speaker and stamped later than that item.  The stamps of
    the whole sequence are strictly increasing when at least two
    milliseconds pass before each turn. *)
Theorem conversation_turn_ordering (E : Env) (ts : list TurnInput)
    (w : World) :
  State.conversationHistory (app w) = [] ->
  State.aiConversationMode (app w) = true ->
  allTurnsSucceed E ts w = true ->
  let h := State.conversationHistory (app (converse E ts w)) in
  (length ts <= length h <= 2 * length ts)%nat
  /\ TurnBlocks (map t_speaker ts) h
  /\ (Forall (fun t => (2 <= t_pause t)%N) ts ->
      Sorted Z.lt (map c_timestamp h)).
Proof.
  intros Hempty Hai Hall h.
  destruct (converse_blocks E ts w Hai Hall) as (h' & Hh & Hblocks).
  rewrite Hempty in Hh. cbn [app] in Hh. subst h. rewrite Hh.
  split; [|split].
  - rewrite <- (length_map t_speaker ts). apply TurnBlocks_length, Hblocks.
  - exact Hblocks.
  - intros Hpause. rewrite <- Hh.
    apply (converse_stamps E ts w Hai Hall Hpause).
    unfold stampsInOrder. rewrite Hempty. split; constructor.
Qed.

(** The theorem on two turns, seconds apart, both answered by a reply. *)
Lemma conversation_turn_ordering_witness :
  let h := State.conversationHistory
             (app (converse chatEnv relaxedTurns freshWorld)) in
  allTurnsSucceed chatEnv relaxedTurns freshWorld = true
  /\ (2 <= length h <= 4)%nat
  /\ TurnBlocks [A; B] h
  /\ Sorted Z.lt (map c_timestamp h).
Proof.
  intros h.
  destruct (conversation_turn_ordering chatEnv relaxedTurns freshWorld)
    as (Hlen & Hblocks & Hsorted); try reflexivity.
  split; [reflexivity|]. split; [exact Hlen|]. split; [exact Hblocks|].
  apply Hsorted. repeat constructor; vm_compute; discriminate.
Defined.

(** C9 fails as stated: two successful turns with replies enabled, answered
    within the millisecond and one millisecond apart, give four items whose
    stamps are not strictly increasing: the reply of the first turn and the
    human item of the second carry the same stamp. *)
Lemma conversation_stamps_counterexample :
  let h := State.conversationHistory
             (app (converse instantChatEnv hurriedTurns freshWorld)) in
  allTurnsSucceed instantChatEnv hurriedTurns freshWorld = true
  /\ State.aiConversationMode (app freshWorld) = true
  /\ map c_timestamp h
     = [1700000000001; 1700000000002; 1700000000002; 1700000000003]
  /\ ~ Sorted Z.lt (map c_timestamp h).
Proof.
  vm_compute. repeat split; try reflexivity.
  intros H.
  apply Sorted_inv in H as [H _].
  apply Sorted_inv in H as [_ H].
  apply HdRel_inv in H. discriminate.
Qed.

(** ** The key of the picture pipeline *)

Lemma toggleFavorite_texts (key : string) (h : list TranslationHistoryItem) :
  map transcribedText
    (map (fun item =>
            if String.eqb (id item) key
            then mkItem (id item) (transcribedText item) (translatedText item)
                   (culturalTips item) (sourceLang item) (targetLang item)
                   (timestamp item) (negb (isFavorite item))
            else item) h)
  = map transcribedText h.
Proof.
  induction h as [|item h IH]; [reflexivity|].
  cbn [map]. rewrite IH. destruct (String.eqb (id item) key); reflexivity.
Qed.

Lemma toggleFavorite_written (E : Env) (w : World) (key : string) :
  storageOk E (ios w) = true ->
  let w' := exec (handle (fun r => toggleFavorite E r key)) w in
  storage w' =
    <["@translation_history" := JsonHistory (State.history (app w'))]>
      (storage w)
  /\ ios w' = S (ios w).
Proof.
  intros Hio. unfold toggleFavorite. unfold_M. proj. rewrite Hio. proj.
  split; reflexivity.
Qed.

(** C10, as the code has it.  When [translateExtractedText] has every
    request answered and its storage write succeeds, the new record heads
    the history cell and the new array is stored under
    ["translationHistory"]; what is stored under ["@translation_history"] is
    untouched.  That is the key [loadHistory] reads, so after a restart that
    follows the call directly [loadHistory] shows what was persisted before
    the call (or nothing when the read fails), and the new record is not
    among it unless it was already.  It is also the key [saveTranslation]
    and [toggleFavorite] write, with the whole history of the render that
    runs them: the next of these calls whose write succeeds stores the new
    record under ["@translation_history"], and [loadHistory] shows it from
    then on. *)
Theorem ocr_record_key_mismatch (E : Env) (w : World)
    (txt : string) :
  let w' := exec (handle (fun r => translateExtractedText E r txt)) w in
  forallb succeeded (newCalls w w') = true ->
  storageOk E (ios w) = true ->
  exists item,
    State.history (app w') = item :: State.history (app w)
    /\ transcribedText item = txt
    /\ storage w' =
       <["translationHistory" := JsonHistory (item :: State.history (app w))]>
         (storage w)
    /\ persistedHistory w' = persistedHistory w
    /\ State.history (app (exec (loadHistory E) (restart w')))
       = (if storageOk E (S (ios w)) then persistedHistory w else [])
    /\ (item ∉ persistedHistory w ->
        item ∉ State.history (app (exec (loadHistory E) (restart w'))))
    /\ (forall d,
          storageOk E (S (ios w)) = true ->
          let w2 := exec (handle (fun r => saveTranslation E r d)) w' in
          exists saved,
            storage w2 =
              <["@translation_history" :=
                  JsonHistory (saved :: item :: State.history (app w))]>
                (storage w')
            /\ persistedHistory w2 = saved :: item :: State.history (app w))
    /\ (forall key,
          storageOk E (S (ios w)) = true ->
          let w2 := exec (handle (fun r => toggleFavorite E r key)) w' in
          storage w2 =
            <["@translation_history" := JsonHistory (State.history (app w2))]>
              (storage w')
          /\ persistedHistory w2 = State.history (app w2)
          /\ map transcribedText (persistedHistory w2)
             = txt :: map transcribedText (State.history (app w))
          /\ State.history (app (exec (loadHistory E) (restart w2)))
             = (if storageOk E (S (S (ios w))) then State.history (app w2)
                else [])).
Proof.
  intros w' Hcalls Hio.
  assert (Hrun : exists item,
            State.history (app w') = item :: State.history (app w)
            /\ transcribedText item = txt
            /\ ios w' = S (ios w)
            /\ storage w' =
               <["translationHistory" :=
                   JsonHistory (item :: State.history (app w))]> (storage w)).
  { revert Hcalls. subst w'.
    unfold translateExtractedText. unfold_M. proj.
    destruct (String.eqb (State.sourceLang (app w)) "auto"); proj.
    - match goal with |- context [respond E ?n ?q] =>
        destruct (respond E n q) as [raw|] eqn:Hd end;
        proj; [|new_calls; discriminate].
      next_index.
      match goal with |- context [respond E ?n ?q] =>
        destruct (respond E n q) as [rawT|] eqn:Ht end;
        proj; [|new_calls; discriminate].
      next_index.
      match goal with |- context [respond E ?n ?q] =>
        destruct (respond E n q) as [rawTips|] eqn:Htips end;
        proj; [|new_calls; discriminate].
      intros _. rewrite Hio. proj.
      eexists. repeat split; reflexivity.
    - match goal with |- context [respond E ?n ?q] =>
        destruct (respond E n q) as [rawT|] eqn:Ht end;
        proj; [|new_calls; discriminate].
      next_index.
      match goal with |- context [respond E ?n ?q] =>
        destruct (respond E n q) as [rawTips|] eqn:Htips end;
        proj; [|new_calls; discriminate].
      intros _. rewrite Hio. proj.
      eexists. repeat split; reflexivity. }
  destruct Hrun as (item & Hh & Htxt & Hios & Hst).
  assert (Hp : persistedHistory w' = persistedHistory w).
  { unfold persistedHistory. rewrite Hst, lookup_insert_ne by discriminate.
    reflexivity. }
  exists item.
  split; [exact Hh|]. split; [exact Htxt|]. split; [exact Hst|].
  split; [exact Hp|]. split; [|split; [|split]].
  - rewrite loadHistory_after_restart, Hp, Hios. reflexivity.
  - intros Hnot. rewrite loadHistory_after_restart, Hp.
    destruct (storageOk E (ios w')); [exact Hnot|]. apply not_elem_of_nil.
  - intros d Hio2 w2. subst w2.
    change (exec (handle (fun r => saveTranslation E r d)) w')
      with (exec (saveTranslation E (app w') d) w').
    destruct (saveTranslation_effect E (app w') d w') as [_ Hst2].
    rewrite Hios, Hio2, Hh in Hst2.
    eexists. split; [exact Hst2|].
    unfold persistedHistory. rewrite Hst2, lookup_insert_eq. reflexivity.
  - intros key Hio2 w2.
    rewrite <- Hios in Hio2.
    destruct (toggleFavorite_written E w' key Hio2) as [Hst2 Hios2].
    fold w2 in Hst2, Hios2.
    assert (Hp2 : persistedHistory w2 = State.history (app w2)).
    { unfold persistedHistory. rewrite Hst2, lookup_insert_eq. reflexivity. }
    split; [exact Hst2|]. split; [exact Hp2|]. split.
    + rewrite Hp2. subst w2. rewrite toggleFavorite_history, Hh.
      rewrite toggleFavorite_texts. cbn [map]. rewrite Htxt. reflexivity.
    + rewrite loadHistory_after_restart, Hp2, Hios2, Hios. reflexivity.
Qed.

(** The theorem on a history of one stored record, to which a picture adds
    a second one. *)
Lemma ocr_record_key_mismatch_witness :
  let w := oneRecordWorld in
  let w' := exec (handle (fun r => translateExtractedText exitEnv r "Exit")) w in
  map transcribedText (State.history (app w')) = ["Exit"; "Good morning"]
  /\ map transcribedText
       (State.history (app (exec (loadHistory exitEnv) (restart w'))))
     = ["Good morning"].
Proof.
  intros w w'.
  destruct (ocr_record_key_mismatch exitEnv w "Exit")
    as (item & Hh & Htxt & _ & _ & Hload & _); try reflexivity.
  split.
  - fold w' in Hh. rewrite Hh. cbn [map]. rewrite Htxt. reflexivity.
  - fold w' in Hload. rewrite Hload. reflexivity.
Defined.

(** C10 fails as stated: the record of a picture is in the history a later
    render closes over, so a favourite toggle after the picture pipeline
    writes it under ["@translation_history"], and after a restart
    [loadHistory] shows it. *)
Lemma ocr_record_reloaded_counterexample :
  let w1 := exec (handle (fun r => translateExtractedText exitEnv r "Exit"))
              oneRecordWorld in
  let w2 := exec (handle (fun r => toggleFavorite exitEnv r "1700000000000"))
              w1 in
  let w3 := exec (loadHistory exitEnv) (restart w2) in
  map transcribedText (State.history (app w1)) = ["Exit"; "Good morning"]
  /\ map transcribedText (persistedHistory w1) = ["Good morning"]
  /\ map transcribedText (State.history (app w3)) = ["Exit"; "Good morning"]
  /\ map isFavorite (State.history (app w3)) = [false; true].
Proof. vm_compute. repeat split; reflexivity. Qed.

(** ** The clean-up of the answers *)

Lemma removeStars_chars (s : string) (c : ascii) :
  c ∈ chars (JS.removeStars s) -> c ∈ chars s /\ c <> JS.star.
Proof.
  induction s as [|a s IH]; cbn [JS.removeStars chars]; intros Hin.
  - apply elem_of_nil in Hin. contradiction.
  - destruct (Ascii.eqb a JS.star) eqn:Ha.
    + destruct (IH Hin) as [H1 H2]. split; [right; exact H1|exact H2].
    + cbn [chars] in Hin. apply elem_of_cons in Hin as [->|Hin].
      * split; [left|]. apply Ascii.eqb_neq. exact Ha.
      * destruct (IH Hin) as [H1 H2]. split; [right; exact H1|exact H2].
Qed.

Lemma splitLines_chars (s piece : string) (c : ascii) :
  piece ∈ JS.splitLines s -> c ∈ chars piece ->
  c ∈ chars s /\ c <> JS.newline.
Proof.
  revert piece. induction s as [|a s IH]; cbn [JS.splitLines]; intros piece Hp Hc.
  - apply list_elem_of_singleton in Hp. subst piece.
    apply elem_of_nil in Hc. contradiction.
  - destruct (Ascii.eqb a JS.newline) eqn:Ha.
    + apply elem_of_cons in Hp as [->|Hp].
      * apply elem_of_nil in Hc. contradiction.
      * destruct (IH _ Hp Hc) as [H1 H2]. split; [right; exact H1|exact H2].
    + destruct (JS.splitLines s) as [|q qs] eqn:Hs.
      * apply list_elem_of_singleton in Hp. subst piece. cbn [chars] in Hc.
        apply elem_of_cons in Hc as [->|Hc].
        -- split; [left|]. apply Ascii.eqb_neq. exact Ha.
        -- apply elem_of_nil in Hc. contradiction.
      * apply elem_of_cons in Hp as [->|Hp].
        -- cbn [chars] in Hc. apply elem_of_cons in Hc as [->|Hc].
           ++ split; [left|]. apply Ascii.eqb_neq. exact Ha.
           ++ destruct (IH q (list_elem_of_here _ _) Hc) as [H1 H2].
              split; [right; exact H1|exact H2].
        -- destruct (IH piece (list_elem_of_further _ _ _ Hp) Hc) as [H1 H2].
           split; [right; exact H1|exact H2].
Qed.

(** X1.  Every cultural tip kept by the voice and text pipelines is a
    non-empty line of the answer: it holds no line feed and no asterisk. *)
Theorem tipLines_are_clean (raw tip : string) :
  tip ∈ tipLines raw ->
  tip <> EmptyString
  /\ (JS.star ∉ chars tip)
  /\ (JS.newline ∉ chars tip).
Proof.
  unfold tipLines. intros Hin.
  apply list_elem_of_filter in Hin as [Hlen Hin].
  split; [|split].
  - intros ->. cbn in Hlen. lia.
  - intros Hc. destruct (splitLines_chars _ _ _ Hin Hc) as [Hc' _].
    apply removeStars_chars in Hc' as [_ Hne]. apply Hne. reflexivity.
  - intros Hc. destruct (splitLines_chars _ _ _ Hin Hc) as [_ Hne].
    apply Hne. reflexivity.
Qed.

Lemma tipLines_are_clean_witness :
  let raw := "**1. Be polite**" +:+ nl +:+ nl +:+ "2. Greet first" in
  ("1. Be polite" ∈ tipLines raw)
  /\ (JS.star ∉ chars "1. Be polite").
Proof.
  intros raw.
  assert (H : "1. Be polite" ∈ tipLines raw) by (vm_compute; left).
  split; [exact H|].
  exact (proj1 (proj2 (tipLines_are_clean raw "1. Be polite" H))).
Defined.

(** X2.  The picture pipeline filters its tips more strictly than the other
    two: it keeps exactly the tips they would keep that are not blank. *)
Theorem ocrTipLines_are_the_nonblank_tips (raw tip : string) :
  tip ∈ ocrTipLines raw <-> tip ∈ tipLines raw /\ JS.trim tip <> EmptyString.
Proof.
  unfold ocrTipLines, tipLines. rewrite !list_elem_of_filter. split.
  - intros [Ht Hin]. apply truthy_spec in Ht. split; [split|]; try assumption.
    destruct tip; [|cbn; lia]. exfalso. apply Ht. reflexivity.
  - intros [[_ Hin] Ht]. split; [apply truthy_spec; exact Ht|exact Hin].
Qed.

Lemma cleanText_chars (raw : string) : JS.star ∉ chars (cleanText raw).
Proof.
  unfold cleanText. intros Hc.
  apply removeStars_chars in Hc as [_ Hne]. apply Hne. reflexivity.
Qed.

(** ** [blobToBase64] *)

Lemma split_before_separator (sep : ascii) (header rest : string) :
  sep ∉ chars header ->
  split sep (header +:+ String sep rest) = header :: split sep rest.
Proof.
  induction header as [|a header IH]; intros Hnot.
  - change (EmptyString +:+ String sep rest) with (String sep rest).
    cbn [split]. rewrite Ascii.eqb_refl. reflexivity.
  - change (String a header +:+ String sep rest)
      with (String a (header +:+ String sep rest)).
    cbn [split]. destruct (Ascii.eqb a sep) eqn:Ha.
    + apply Ascii.eqb_eq in Ha. subst a. exfalso. apply Hnot. left.
    + rewrite IH; [reflexivity|].
      intros Hin. apply Hnot. right. exact Hin.
Qed.

Lemma split_without_separator (sep : ascii) (s : string) :
  sep ∉ chars s -> split sep s = [s].
Proof.
  induction s as [|a s IH]; intros Hnot; [reflexivity|].
  cbn [split]. destruct (Ascii.eqb a sep) eqn:Ha.
  - apply Ascii.eqb_eq in Ha. subst a. exfalso. apply Hnot. left.
  - rewrite IH; [reflexivity|]. intros Hin. apply Hnot. right. exact Hin.
Qed.

(** X4.  [blobToBase64] strips the header of a data URL: when the reader's
    result is a header without comma, a comma and a payload without comma
    (as base64 text is), the promise resolves with exactly the payload; on a
    result without any comma it resolves with [undefined]. *)
Theorem blobToBase64_strips_header (header payload : string) (w : World) :
  ","%char ∉ chars header ->
  ","%char ∉ chars payload ->
  blobToBase64 (Some (header +:+ "," +:+ payload)) w
  = (Resolved (Some payload), w)
  /\ blobToBase64 (Some header) w = (Resolved None, w).
Proof.
  intros Hh Hp. unfold blobToBase64, ret. split.
  - change ("," +:+ payload) with (String ","%char payload).
    rewrite split_before_separator by exact Hh.
    rewrite split_without_separator by exact Hp. reflexivity.
  - rewrite split_without_separator by exact Hh. reflexivity.
Qed.

Lemma blobToBase64_strips_header_witness :
  blobToBase64 (Some "data:audio/m4a;base64,UklGRiQAAABXQVZF") freshWorld
  = (Resolved (Some "UklGRiQAAABXQVZF"), freshWorld).
Proof.
  apply (blobToBase64_strips_header "data:audio/m4a;base64"
           "UklGRiQAAABXQVZF" freshWorld).
  - vm_compute. intros H. repeat (apply elem_of_cons in H as [H|H]; [discriminate H|]).
    apply elem_of_nil in H. exact H.
  - vm_compute. intros H. repeat (apply elem_of_cons in H as [H|H]; [discriminate H|]).
    apply elem_of_nil in H. exact H.
Defined.

(** ** The choice of a voice in [speak] *)

Lemma find_nothing {T} (f : T -> bool) (l : list T) :
  (forall x, In x l -> f x = false) -> List.find f l = None.
Proof.
  induction l as [|x l IH]; intros Hall; [reflexivity|].
  cbn [List.find]. rewrite (Hall x (or_introl eq_refl)).
  apply IH. intros y Hy. apply Hall. right. exact Hy.
Qed.

(** X5.  In the Web Speech branch of [speak] the broader match tried for
    Spanish never finds a voice that the first search missed: the voice
    selected is always the result of the first search, and a voice is
    selected only if its language, lower-cased, starts with the mapped
    locale or with the language code, lower-cased. *)
Theorem selectedVoice_is_first_match (E : Env) (voices : list WebVoice)
    (language : string) :
  selectedVoice E voices language = matchingWebVoice E voices language
  /\ forall voice,
       selectedVoice E voices language = Some voice ->
       In voice voices
       /\ (startsWith (toLowerCase E (voiceLang voice))
             (toLowerCase E (speechLang language)) = true
           \/ startsWith (toLowerCase E (voiceLang voice))
                (toLowerCase E language) = true).
Proof.
  assert (Heq : selectedVoice E voices language
                = matchingWebVoice E voices language).
  { unfold selectedVoice.
    destruct (matchingWebVoice E voices language) as [voice|] eqn:Hm;
      [reflexivity|].
    destruct (String.eqb language "es") eqn:Hes; [|reflexivity].
    apply String.eqb_eq in Hes. subst language.
    apply find_nothing. intros voice Hin.
    unfold matchingWebVoice in Hm.
    pose proof (List.find_none _ _ Hm voice Hin) as Hno. cbn beta in Hno.
    apply orb_false_elim in Hno as [_ Hno]. exact Hno. }
  split; [exact Heq|].
  intros voice Hsel. rewrite Heq in Hsel. unfold matchingWebVoice in Hsel.
  apply List.find_some in Hsel as [Hin Hp]. split; [exact Hin|].
  apply orb_true_iff in Hp. exact Hp.
Qed.

Lemma possibleLanguages_not_empty (language : string) :
  possibleLanguages language <> [].
Proof.
  unfold possibleLanguages, speechLanguageMap. cbn [property].
  repeat (destruct (String.eqb _ language); [discriminate|]).
  discriminate.
Qed.

Lemma firstSpoken_spec (E : Env) (availableVoices langs : list string) :
  match firstSpoken E availableVoices langs with
  | Some lang =>
      exists before after,
        langs = (before ++ lang :: after)%list
        /\ existsb (fun voice =>
                      String.eqb (toLowerCase E voice) (toLowerCase E lang))
             availableVoices = true
        /\ Forall (fun l =>
                     existsb (fun voice =>
                                String.eqb (toLowerCase E voice)
                                  (toLowerCase E l))
                       availableVoices = false) before
  | None =>
      Forall (fun l =>
                existsb (fun voice =>
                           String.eqb (toLowerCase E voice)
                             (toLowerCase E l))
                  availableVoices = false) langs
  end.
Proof.
  induction langs as [|lang langs IH]; cbn [firstSpoken]; [constructor|].
  destruct (existsb _ availableVoices) eqn:Hex.
  - exists [], langs. split; [reflexivity|]. split; [exact Hex|constructor].
  - destruct (firstSpoken E availableVoices langs) as [l|].
    + destruct IH as (before & after & -> & Hl & Hbefore).
      exists (lang :: before), after. split; [reflexivity|].
      split; [exact Hl|]. constructor; assumption.
    + constructor; assumption.
Qed.

(** X6.  In the Expo Speech branch of [speak] a language is always
    selected, and it is one of the candidates of the language code: the
    first candidate, in the order of the table, that some available voice
    speaks (compared without case), or the first candidate of all when no
    voice speaks any of them. *)
Theorem selectedLanguage_is_first_spoken (E : Env)
    (availableVoices : list string) (language : string) :
  exists lang before after,
    selectedLanguage E availableVoices language = Some lang
    /\ possibleLanguages language = (before ++ lang :: after)%list
    /\ Forall (fun l =>
                 existsb (fun voice =>
                            String.eqb (toLowerCase E voice)
                              (toLowerCase E l))
                   availableVoices = false) before
    /\ (existsb (fun voice =>
                   String.eqb (toLowerCase E voice) (toLowerCase E lang))
          availableVoices = true
        \/ (before = []
            /\ Forall (fun l =>
                         existsb (fun voice =>
                                    String.eqb (toLowerCase E voice)
                                      (toLowerCase E l))
                           availableVoices = false) after)).
Proof.
  unfold selectedLanguage.
  pose proof (firstSpoken_spec E availableVoices (possibleLanguages language))
    as Hspec.
  destruct (firstSpoken E availableVoices (possibleLanguages language))
    as [lang|].
  - destruct Hspec as (before & after & Hsplit & Hlang & Hbefore).
    exists lang, before, after.
    split; [reflexivity|]. split; [exact Hsplit|]. split; [exact Hbefore|].
    left. exact Hlang.
  - pose proof (possibleLanguages_not_empty language) as Hne.
    destruct (possibleLanguages language) as [|lang after]; [contradiction|].
    apply Forall_cons in Hspec as [_ Hafter].
    exists lang, [], after.
    split; [reflexivity|]. split; [reflexivity|]. split; [constructor|].
    right. split; [reflexivity|exact Hafter].
Qed.

(** ** The language picker *)

Lemma includes_empty (s : string) : includes s EmptyString = true.
Proof. destruct s; reflexivity. Qed.

Lemma filter_all {T} (f : T -> bool) (l : list T) :
  (forall x, f x = true) -> List.filter f l = l.
Proof.
  intros Hall. induction l as [|x l IH]; [reflexivity|].
  cbn [List.filter]. rewrite Hall, IH. reflexivity.
Qed.

(** X7.  Opening the language picker resets the search, so the list it
    shows is complete: every language for the target, and Auto-Detect
    followed by every language for the source. *)
Theorem openLangModal_shows_every_language (E : Env)
    (languages : list LanguageOption) (type : LangSlot) (p : LanguagePicker) :
  filteredLanguages E languages (openLangModal type p)
  = match type with
    | SourceSlot => mkOption "Auto-Detect" "auto" :: languages
    | TargetSlot => languages
    end.
Proof.
  unfold filteredLanguages, openLangModal, enhancedLanguages.
  cbn [editingLang searchTerm].
  change (toLowerCase E EmptyString) with EmptyString.
  destruct type; apply filter_all; intros x; apply includes_empty.
Qed.

(** X8.  The picker opened for the target language offers only entries of
    the language table, never Auto-Detect: when no language of the table
    has the sentinel as value, choosing any offered entry sets the target
    language to a value that is not the sentinel, leaves the source
    language as it is and closes the picker. *)
Theorem picker_target_is_never_the_sentinel (E : Env)
    (languages : list LanguageOption) (p : LanguagePicker)
    (entry : LanguageOption) (w : World) :
  editingLang p = Some TargetSlot ->
  Forall (fun lang => value lang <> "auto") languages ->
  In entry (filteredLanguages E languages p) ->
  exists w',
    onSelectLang p (value entry) w
    = (Resolved (mkPicker false (Some TargetSlot) (searchTerm p)), w')
    /\ State.targetLang (app w') = value entry
    /\ value entry <> "auto"
    /\ State.sourceLang (app w') = State.sourceLang (app w).
Proof.
  intros Hslot Hall Hin.
  unfold filteredLanguages in Hin. rewrite Hslot in Hin.
  apply List.filter_In in Hin as [Hin _].
  unfold onSelectLang. rewrite Hslot. unfold_M. proj.
  eexists. split; [reflexivity|]. proj.
  split; [reflexivity|]. split; [|reflexivity].
  rewrite List.Forall_forall in Hall. apply Hall. exact Hin.
Qed.

Lemma picker_target_is_never_the_sentinel_witness :
  let languages := [mkOption "English" "en"; mkOption "Spanish" "es"] in
  let p := mkPicker true (Some TargetSlot) "span" in
  exists w',
    onSelectLang p "es" freshWorld
    = (Resolved (mkPicker false (Some TargetSlot) "span"), w')
    /\ State.targetLang (app w') = "es".
Proof.
  intros languages p.
  destruct (picker_target_is_never_the_sentinel morningEnv languages p
              (mkOption "Spanish" "es") freshWorld)
    as (w' & Hrun & Htarget & _).
  - reflexivity.
  - repeat constructor; discriminate.
  - vm_compute. left. reflexivity.
  - exists w'. split; [exact Hrun|exact Htarget].
Defined.

(** ** The pipelines as a whole *)

(** Split on the answer to the request now being made. *)
Ltac next_answer raw :=
  next_index;
  match goal with
  | |- context [respond ?E ?n ?q] =>
      let H := fresh "Hanswer" in
      destruct (respond E n q) as [raw|] eqn:H
  end;
  proj.

(** Close a branch of a run whose texts on display and in the history are
    the ones before it, empty, or cleaned answers. *)
Ltac star_free :=
  split;
    [ first [assumption | apply cleanText_chars | apply not_elem_of_nil]
    | first [assumption
            | constructor; [apply cleanText_chars|assumption]] ].

(** Close a branch of a run under a hypothesis on the log of new requests:
    either the hypothesis fails on that log, or the goal holds as it is. *)
Ltac settle :=
  first [ new_calls; discriminate
        | intros _; repeat split; reflexivity ].

(** X9.  A rejected request aborts each of the three pipelines that feed
    the history (voice, text, picture): nothing is appended to the history,
    nothing is written to the storage, the alert of the pipeline is raised
    exactly once and the loading indicator is switched off. *)
Theorem rejected_request_persists_nothing (E : Env) (p : Pipeline)
    (w : World) :
  let w' := exec (runPipeline E p) w in
  forallb succeeded (newCalls w w') = false ->
  State.history (app w') = State.history (app w)
  /\ storage w' = storage w
  /\ alerts w' = (alerts w ++ [pipelineAlert p])%list
  /\ State.isLoading (app w') = false.
Proof.
  intros w'. subst w'. destruct p as [| |txt]; cbn [runPipeline pipelineAlert].
  - unfold stopRecording. unfold_M. proj.
    destruct (State.recording (app w)) as [rec|]; proj; [|settle].
    destruct (stopAndUnloadOk rec); proj; [|settle].
    destruct (JS.falsy (getURI rec)); proj; [settle|].
    destruct (fetched rec) as [audio|]; proj; [|settle].
    next_answer raw; [|settle].
    next_answer rawT; [|settle].
    next_answer rawTips; [|settle].
    destruct (storageOk E (ios w)); proj; settle.
  - unfold translateText. unfold_M. proj.
    destruct (JS.truthy (JS.trim (State.textToTranslate (app w)))); proj;
      [|settle].
    destruct (String.eqb (State.sourceLang (app w)) "auto"); proj.
    + next_answer raw; [|settle].
      next_answer rawT; [|settle].
      next_answer rawTips; [|settle].
      destruct (storageOk E (ios w)); proj; settle.
    + next_answer rawT; [|settle].
      next_answer rawTips; [|settle].
      destruct (storageOk E (ios w)); proj; settle.
  - unfold translateExtractedText. unfold_M. proj.
    destruct (String.eqb (State.sourceLang (app w)) "auto"); proj.
    + next_answer raw; [|settle].
      next_answer rawT; [|settle].
      next_answer rawTips; [|settle].
      destruct (storageOk E (ios w)); proj; settle.
    + next_answer rawT; [|settle].
      next_answer rawTips; [|settle].
      destruct (storageOk E (ios w)); proj; settle.
Qed.

Lemma rejected_request_persists_nothing_witness :
  let w := recordingWorld freshWorld in
  let w' := exec (runPipeline voiceFailEnv VoicePipeline) w in
  State.history (app w') = State.history (app w)
  /\ storage w' = storage w
  /\ alerts w' = (alerts w ++ [pipelineAlert VoicePipeline])%list.
Proof.
  intros w w'.
  destruct (rejected_request_persists_nothing voiceFailEnv VoicePipeline w)
    as (Hh & Hst & Hal & _).
  - vm_compute. reflexivity.
  - split; [exact Hh|]. split; [exact Hst|exact Hal].
Defined.

(** X10.  When the recording of the voice pipeline stops and is read, the
    transcription request is answered by [raw] and the two requests after
    it are answered too, [stopRecording] puts exactly one record at the
    head of the history: its text is [raw] trimmed, its source language is
    the one chosen by the caller as it stands (no detection is run), its
    identifier is a reading of the clock in decimal, taken no later than its
    time stamp, and it is not a favourite.  The recording cell is emptied
    and the loading indicator switched off. *)
Theorem stopRecording_appends_record (E : Env) (w : World)
    (rec : Recording) (audio : option string * string) (raw : string) :
  State.recording (app w) = Some rec ->
  stopAndUnloadOk rec = true ->
  JS.falsy (getURI rec) = false ->
  fetched rec = Some audio ->
  respond E (length (calls w))
    (PromptWithMedia (transcribePrompt (State.sourceLang (app w)))
       (orDefault (fst audio) "audio/m4a") (snd audio)) = Some raw ->
  let w' := exec (handle (stopRecording E)) w in
  forallb succeeded (newCalls w w') = true ->
  exists item,
    State.history (app w') = item :: State.history (app w)
    /\ transcribedText item = JS.trim raw
    /\ sourceLang item = State.sourceLang (app w)
    /\ targetLang item = State.targetLang (app w)
    /\ isFavorite item = false
    /\ (exists key, id item = pretty key /\ now w <= key <= timestamp item)
    /\ culturalTips item = State.culturalTips (app w')
    /\ translatedText item = State.translatedText (app w')
    /\ State.recording (app w') = None
    /\ State.isLoading (app w') = false
    /\ alerts w' = alerts w.
Proof.
  intros Hrec Hstop Huri Hfetch Htr w'. subst w'.
  unfold stopRecording. unfold_M.
  rewrite Hrec, Hstop, Huri, Hfetch. proj. rewrite Htr. proj.
  next_answer rawT; [|new_calls; discriminate].
  next_answer rawTips; [|new_calls; discriminate].
  intros _.
  destruct (storageOk E (ios w)); proj;
    (eexists; repeat (split; [reflexivity|]);
     split; [eexists; split; [reflexivity|proj; lia]|];
     repeat split; reflexivity).
Qed.

Lemma stopRecording_appends_record_witness :
  let w := recordingWorld (autoDetect freshWorld) in
  let w' := exec (handle (stopRecording voiceEnv)) w in
  exists item,
    State.history (app w') = [item]
    /\ transcribedText item = "Bonjour"
    /\ sourceLang item = "auto".
Proof.
  intros w w'.
  destruct (stopRecording_appends_record voiceEnv w sampleRecording
              (Some "audio/m4a", "UklGRiQAAABXQVZF") "Bonjour")
    as (item & Hh & Htxt & Hsl & _); try reflexivity.
  exists item. split; [exact Hh|]. split; [exact Htxt|exact Hsl].
Defined.

(** The identifier and the time stamp are two readings of the clock: when
    a millisecond goes by at each reading they differ. *)
Lemma identifier_read_before_stamp :
  let E := mkEnv (fun n _ => Some "Hola") (fun _ => 40%N) (fun _ => true)
             (fun _ => 1%N) JS.lowerLatin1 in
  let w' := exec (handle (stopRecording E)) (recordingWorld freshWorld) in
  map id (State.history (app w')) = ["1700000000121"]
  /\ map timestamp (State.history (app w')) = [1700000000122].
Proof. vm_compute. split; reflexivity. Qed.

(** X11.  No pipeline leaves the loading indicator on: started with the
    indicator off, each of the three pipelines ends with it off, whatever
    is refused, rejected or missing on the way. *)
Theorem pipeline_leaves_loading_off (E : Env) (p : Pipeline) (w : World) :
  State.isLoading (app w) = false ->
  State.isLoading (app (exec (runPipeline E p) w)) = false.
Proof.
  intros Hoff. destruct p as [| |txt]; cbn [runPipeline].
  - unfold stopRecording. unfold_M. proj.
    destruct (State.recording (app w)) as [rec|]; proj; [|exact Hoff].
    destruct (stopAndUnloadOk rec); proj; [|exact Hoff].
    destruct (JS.falsy (getURI rec)); proj; [exact Hoff|].
    destruct (fetched rec) as [audio|]; proj; [|reflexivity].
    next_answer raw; [|reflexivity].
    next_answer rawT; [|reflexivity].
    next_answer rawTips; [|reflexivity].
    destruct (storageOk E (ios w)); reflexivity.
  - unfold translateText. unfold_M. proj.
    destruct (JS.truthy (JS.trim (State.textToTranslate (app w)))); proj;
      [|exact Hoff].
    destruct (String.eqb (State.sourceLang (app w)) "auto"); proj.
    + next_answer raw; [|reflexivity].
      next_answer rawT; [|reflexivity].
      next_answer rawTips; [|reflexivity].
      destruct (storageOk E (ios w)); reflexivity.
    + next_answer rawT; [|reflexivity].
      next_answer rawTips; [|reflexivity].
      destruct (storageOk E (ios w)); reflexivity.
  - unfold translateExtractedText. unfold_M. proj.
    destruct (String.eqb (State.sourceLang (app w)) "auto"); proj.
    + next_answer raw; [|reflexivity].
      next_answer rawT; [|reflexivity].
      next_answer rawTips; [|reflexivity].
      destruct (storageOk E (ios w)); reflexivity.
    + next_answer rawT; [|reflexivity].
      next_answer rawTips; [|reflexivity].
      destruct (storageOk E (ios w)); reflexivity.
Qed.

Lemma pipeline_leaves_loading_off_witness :
  State.isLoading
    (app (exec (runPipeline tipsFailEnv TextPipeline)
            (typed "Good morning" freshWorld))) = false.
Proof.
  apply (pipeline_leaves_loading_off tipsFailEnv TextPipeline
           (typed "Good morning" freshWorld)).
  reflexivity.
Defined.

(** X3.  The voice, text and picture pipelines never show or record a
    translation that holds an asterisk: when the translation on display and
    the translations of the history hold none before one of them runs, they
    hold none after it, whatever is answered. *)
Theorem pipelines_keep_translations_star_free (E : Env) (p : Pipeline)
    (w : World) :
  JS.star ∉ chars (State.translatedText (app w)) ->
  Forall (fun item => JS.star ∉ chars (translatedText item))
    (State.history (app w)) ->
  let w' := exec (runPipeline E p) w in
  (JS.star ∉ chars (State.translatedText (app w')))
  /\ Forall (fun item => JS.star ∉ chars (translatedText item))
       (State.history (app w')).
Proof.
  intros Hshown Hkept w'. subst w'.
  destruct p as [| |txt]; cbn [runPipeline].
  - unfold stopRecording. unfold_M. proj.
    destruct (State.recording (app w)) as [rec|]; proj; [|star_free].
    destruct (stopAndUnloadOk rec); proj; [|star_free].
    destruct (JS.falsy (getURI rec)); proj; [star_free|].
    destruct (fetched rec) as [audio|]; proj; [|star_free].
    next_answer raw; [|star_free].
    next_answer rawT; [|star_free].
    next_answer rawTips; [|star_free].
    destruct (storageOk E (ios w)); proj; star_free.
  - unfold translateText. unfold_M. proj.
    destruct (JS.truthy (JS.trim (State.textToTranslate (app w)))); proj;
      [|star_free].
    destruct (String.eqb (State.sourceLang (app w)) "auto"); proj.
    + next_answer raw; [|star_free].
      next_answer rawT; [|star_free].
      next_answer rawTips; [|star_free].
      destruct (storageOk E (ios w)); proj; star_free.
    + next_answer rawT; [|star_free].
      next_answer rawTips; [|star_free].
      destruct (storageOk E (ios w)); proj; star_free.
  - unfold translateExtractedText. unfold_M. proj.
    destruct (String.eqb (State.sourceLang (app w)) "auto"); proj.
    + next_answer raw; [|star_free].
      next_answer rawT; [|star_free].
      next_answer rawTips; [|star_free].
      destruct (storageOk E (ios w)); proj; star_free.
    + next_answer rawT; [|star_free].
      next_answer rawTips; [|star_free].
      destruct (storageOk E (ios w)); proj; star_free.
Qed.

Lemma pipelines_keep_translations_star_free_witness :
  let E := scripted [Some "**Buenos dias**"; Some "1. Be polite"] 40 in
  let w' := exec (runPipeline E TextPipeline)
              (typed "Good morning" freshWorld) in
  State.translatedText (app w') = "Buenos dias"
  /\ (JS.star ∉ chars (State.translatedText (app w')))
  /\ Forall (fun item => JS.star ∉ chars (translatedText item))
       (State.history (app w')).
Proof.
  intros E w'. split; [reflexivity|].
  apply (pipelines_keep_translations_star_free E TextPipeline
           (typed "Good morning" freshWorld)).
  - apply not_elem_of_nil.
  - constructor.
Defined.

(** The conversation pipeline does not remove the asterisks from the
    translation of the speaker's words: it only trims it. *)
Lemma conversation_translation_keeps_stars :
  let E := scripted [Some "Hello"; Some "**Hola**"; None] 40 in
  map c_translation
    (State.conversationHistory
       (app (exec (handle (stopConversationRecording E))
               (recordingWorld freshWorld))))
  = ["**Hola**"].
Proof. vm_compute. reflexivity. Qed.

(** ** The history store under failure *)

(** X12.  A failed write does not undo what [saveTranslation] has shown:
    when the storage operation fails the call still resolves, the new record
    heads the history cell, the storage is as before, the failure is only
    logged and no alert is raised. *)
Theorem saveTranslation_swallows_write_failure (E : Env)
    (r : State.AppState) (d : TranslationDraft) (w : World) :
  storageOk E (ios w) = false ->
  exists w' item,
    saveTranslation E r d w = (Resolved tt, w')
    /\ State.history (app w') = item :: State.history r
    /\ transcribedText item = d_transcribedText d
    /\ isFavorite item = false
    /\ storage w' = storage w
    /\ alerts w' = alerts w
    /\ errors w' = (errors w ++ ["Failed to save translation."])%list.
Proof.
  intros Hfail. unfold_M. proj. rewrite Hfail. proj.
  eexists _, _. repeat split; reflexivity.
Qed.

Lemma saveTranslation_swallows_write_failure_witness :
  let E := mkEnv (fun _ _ => None) (fun _ => 0%N) (fun _ => false)
             (fun _ => 1%N) JS.lowerLatin1 in
  let d := mkDraft "Good morning" "Buenos dias" [] "en" "es" true in
  exists w' item,
    saveTranslation E (app oneRecordWorld) d oneRecordWorld = (Resolved tt, w')
    /\ State.history (app w') = [item; storedItem]
    /\ isFavorite item = false
    /\ persistedHistory w' = [storedItem].
Proof.
  intros E d.
  destruct (saveTranslation_swallows_write_failure E (app oneRecordWorld) d
              oneRecordWorld)
    as (w' & item & Hrun & Hh & _ & Hfav & Hst & _); [reflexivity|].
  exists w', item. split; [exact Hrun|]. split; [exact Hh|].
  split; [exact Hfav|]. unfold persistedHistory. rewrite Hst. reflexivity.
Defined.

(** X13.  [loadHistory] never fails and never writes: it always resolves
    and leaves the storage and the alerts as they are.  When the read
    succeeds and finds a history array under ["@translation_history"], that
    array becomes the history; when the read fails, the key is absent or
    the text stored there is not JSON, the history cell keeps what it
    had. *)
Theorem loadHistory_never_fails (E : Env) (w : World) :
  exists w',
    loadHistory E w = (Resolved tt, w')
    /\ storage w' = storage w
    /\ alerts w' = alerts w
    /\ (forall h,
          storageOk E (ios w) = true ->
          storage w !! "@translation_history" = Some (JsonHistory h) ->
          State.history (app w') = h)
    /\ (storageOk E (ios w) = false
        \/ storage w !! "@translation_history" = None
        \/ storage w !! "@translation_history" = Some NotJson ->
        State.history (app w') = State.history (app w)).
Proof.
  unfold loadHistory. unfold_M. proj.
  destruct (storageOk E (ios w)); proj.
  - destruct (storage w !! "@translation_history") as [[h|]|];
      (eexists; repeat split; try reflexivity; proj).
    + intros h' _ H. injection H as <-. reflexivity.
    + intros [H|[H|H]]; discriminate H.
    + intros h' _ H. discriminate H.
    + intros h' _ H. discriminate H.
  - eexists; repeat split; try reflexivity; proj.
    intros h' H. discriminate H.
Qed.

(** ** What the store holds after a save *)

(** A run of [translateText] on accepted text whose requests are all
    answered. *)
Lemma translateText_success (E : Env) (w : World) :
  JS.trim (State.textToTranslate (app w)) <> EmptyString ->
  let w' := exec (handle (translateText E)) w in
  forallb succeeded (newCalls w w') = true ->
  exists item,
    State.history (app w') = item :: State.history (app w)
    /\ transcribedText item = State.textToTranslate (app w)
    /\ ios w' = S (ios w)
    /\ storage w' =
       (if storageOk E (ios w)
        then <["@translation_history" :=
                 JsonHistory (item :: State.history (app w))]> (storage w)
        else storage w).
Proof.
  intros Hne w'. subst w'. apply truthy_spec in Hne.
  unfold translateText. unfold_M. rewrite Hne. proj.
  destruct (String.eqb (State.sourceLang (app w)) "auto"); proj.
  - next_answer raw; [|new_calls; discriminate].
    next_answer rawT; [|new_calls; discriminate].
    next_answer rawTips; [|new_calls; discriminate].
    intros _. destruct (storageOk E (ios w)); proj;
      (eexists; repeat split; reflexivity).
  - next_answer rawT; [|new_calls; discriminate].
    next_answer rawTips; [|new_calls; discriminate].
    intros _. destruct (storageOk E (ios w)); proj;
      (eexists; repeat split; reflexivity).
Qed.

(** A run of [translateExtractedText] whose requests are all answered. *)
Lemma translateExtractedText_success (E : Env) (w : World) (txt : string) :
  let w' := exec (handle (fun r => translateExtractedText E r txt)) w in
  forallb succeeded (newCalls w w') = true ->
  exists item,
    State.history (app w') = item :: State.history (app w)
    /\ transcribedText item = txt
    /\ ios w' = S (ios w)
    /\ State.textToTranslate (app w') = State.textToTranslate (app w)
    /\ storage w' =
       (if storageOk E (ios w)
        then <["translationHistory" :=
                 JsonHistory (item :: State.history (app w))]> (storage w)
        else storage w).
Proof.
  intros w'. subst w'.
  unfold translateExtractedText. unfold_M. proj.
  destruct (String.eqb (State.sourceLang (app w)) "auto"); proj.
  - next_answer raw; [|new_calls; discriminate].
    next_answer rawT; [|new_calls; discriminate].
    next_answer rawTips; [|new_calls; discriminate].
    intros _. destruct (storageOk E (ios w)); proj;
      (eexists; repeat split; reflexivity).
  - next_answer rawT; [|new_calls; discriminate].
    next_answer rawTips; [|new_calls; discriminate].
    intros _. destruct (storageOk E (ios w)); proj;
      (eexists; repeat split; reflexivity).
Qed.

(** X14.  A translation saved by the text pipeline survives a restart:
    when the text is accepted, every request is answered and the write and
    the later read of the storage succeed, the store holds exactly the
    history shown, and [loadHistory] after a restart gives that history
    back, the new record at its head. *)
Theorem saved_translation_survives_restart (E : Env) (w : World) :
  JS.trim (State.textToTranslate (app w)) <> EmptyString ->
  let w' := exec (handle (translateText E)) w in
  forallb succeeded (newCalls w w') = true ->
  storageOk E (ios w) = true ->
  storageOk E (S (ios w)) = true ->
  exists item,
    State.history (app w') = item :: State.history (app w)
    /\ persistedHistory w' = State.history (app w')
    /\ State.history (app (exec (loadHistory E) (restart w')))
       = State.history (app w').
Proof.
  intros Hne w' Hcalls Hwrite Hread.
  destruct (translateText_success E w Hne Hcalls)
    as (item & Hh & _ & Hios & Hst).
  fold w' in Hh, Hios, Hst. rewrite Hwrite in Hst.
  assert (Hp : persistedHistory w' = State.history (app w')).
  { unfold persistedHistory. rewrite Hst, lookup_insert_eq, Hh. reflexivity. }
  exists item. split; [exact Hh|]. split; [exact Hp|].
  rewrite loadHistory_after_restart, Hios, Hread. exact Hp.
Qed.

Lemma saved_translation_survives_restart_witness :
  let w := typed "Good morning" freshWorld in
  let w' := exec (handle (translateText morningEnv)) w in
  map transcribedText
    (State.history (app (exec (loadHistory morningEnv) (restart w'))))
  = ["Good morning"].
Proof.
  intros w w'.
  assert (Hne : JS.trim (State.textToTranslate (app w)) <> EmptyString)
    by (vm_compute; discriminate).
  destruct (saved_translation_survives_restart morningEnv w Hne
              eq_refl eq_refl eq_refl)
    as (item & Hh & _ & Hload).
  fold w' in Hload. rewrite Hload. reflexivity.
Defined.

(** X15.  The record of a picture, which its own pipeline does not store
    under the key that is read back, becomes durable with the next saved
    text translation: after a picture pipeline and then a text pipeline,
    each with every request answered and a working storage, the array under
    ["@translation_history"] is the text record, then the picture record,
    then the history shown before the two. *)
Theorem next_save_persists_picture_record (E : Env) (w : World)
    (txt : string) :
  let w1 := exec (handle (fun r => translateExtractedText E r txt)) w in
  let w2 := exec (handle (translateText E)) w1 in
  JS.trim (State.textToTranslate (app w)) <> EmptyString ->
  forallb succeeded (newCalls w w1) = true ->
  forallb succeeded (newCalls w1 w2) = true ->
  storageOk E (ios w) = true ->
  storageOk E (S (ios w)) = true ->
  exists pictureItem textItem,
    persistedHistory w1 = persistedHistory w
    /\ persistedHistory w2
       = textItem :: pictureItem :: State.history (app w)
    /\ transcribedText pictureItem = txt
    /\ transcribedText textItem = State.textToTranslate (app w).
Proof.
  intros w1 w2 Hne Hc1 Hc2 Hio1 Hio2.
  destruct (translateExtractedText_success E w txt Hc1)
    as (pictureItem & Hh1 & Htxt1 & Hios1 & Htext & Hst1).
  fold w1 in Hh1, Hios1, Htext, Hst1. rewrite Hio1 in Hst1.
  assert (Hne1 : JS.trim (State.textToTranslate (app w1)) <> EmptyString)
    by (rewrite Htext; exact Hne).
  destruct (translateText_success E w1 Hne1 Hc2)
    as (textItem & Hh2 & Htxt2 & _ & Hst2).
  fold w2 in Hh2, Hst2. rewrite Hios1, Hio2 in Hst2.
  exists pictureItem, textItem. split; [|split; [|split]].
  - unfold persistedHistory. rewrite Hst1, lookup_insert_ne by discriminate.
    reflexivity.
  - unfold persistedHistory. rewrite Hst2, lookup_insert_eq, Hh1.
    reflexivity.
  - exact Htxt1.
  - rewrite Htxt2, Htext. reflexivity.
Qed.

Lemma next_save_persists_picture_record_witness :
  let w := typed "Good morning" freshWorld in
  let E := scripted [Some "Salida"; Some "- Follow the signs";
                     Some "Buenos dias"; Some "1. Be polite"] 40 in
  let w1 := exec (handle (fun r => translateExtractedText E r "Exit")) w in
  let w2 := exec (handle (translateText E)) w1 in
  map transcribedText (persistedHistory w1) = []
  /\ map transcribedText (persistedHistory w2) = ["Good morning"; "Exit"].
Proof.
  intros w E w1 w2.
  assert (Hne : JS.trim (State.textToTranslate (app w)) <> EmptyString)
    by (vm_compute; discriminate).
  destruct (next_save_persists_picture_record E w "Exit" Hne
              eq_refl eq_refl eq_refl eq_refl)
    as (pictureItem & textItem & Hp1 & Hp2 & Ht1 & Ht2).
  subst w1 w2. split.
  - rewrite Hp1. reflexivity.
  - rewrite Hp2. cbn [map]. rewrite Ht1, Ht2. reflexivity.
Defined.

(** ** Favourites: what a toggle keeps *)

Lemma lookup_map {T U} (f : T -> U) (l : list T) (i : nat) :
  map f l !! i = option_map f (l !! i).
Proof.
  revert i. induction l as [|x l IH]; intros [|i]; try reflexivity.
  cbn [map]. cbn. apply IH.
Qed.

(** X16.  [toggleFavorite] changes nothing but the flag: the record at
    each position keeps its identifier, texts, tips, languages and time
    stamp, and its flag is negated exactly when its identifier is the given
    one.  The array written to the store, when the write succeeds, is the
    history shown after the toggle. *)
Theorem toggleFavorite_changes_only_the_flag (E : Env) (w : World)
    (key : string) (i : nat) (item : TranslationHistoryItem) :
  State.history (app w) !! i = Some item ->
  let w' := exec (handle (fun r => toggleFavorite E r key)) w in
  exists item',
    State.history (app w') !! i = Some item'
    /\ id item' = id item
    /\ transcribedText item' = transcribedText item
    /\ translatedText item' = translatedText item
    /\ culturalTips item' = culturalTips item
    /\ sourceLang item' = sourceLang item
    /\ targetLang item' = targetLang item
    /\ timestamp item' = timestamp item
    /\ isFavorite item'
       = (if String.eqb (id item) key then negb (isFavorite item)
          else isFavorite item)
    /\ storage w' =
       (if storageOk E (ios w)
        then <["@translation_history" :=
                 JsonHistory (State.history (app w'))]> (storage w)
        else storage w).
Proof.
  intros Hi w'.
  assert (Hst : storage w' =
                (if storageOk E (ios w)
                 then <["@translation_history" :=
                          JsonHistory (State.history (app w'))]> (storage w)
                 else storage w)).
  { subst w'. unfold toggleFavorite. unfold_M. proj.
    destruct (storageOk E (ios w)); reflexivity. }
  subst w'. rewrite toggleFavorite_history in *.
  rewrite lookup_map, Hi. cbn [option_map].
  eexists. split; [reflexivity|].
  destruct (String.eqb (id item) key); proj;
    repeat (split; [reflexivity|]); exact Hst.
Qed.

Lemma toggleFavorite_changes_only_the_flag_witness :
  let w' := exec (handle (fun r =>
                    toggleFavorite morningEnv r "1700000000000"))
              oneRecordWorld in
  exists item',
    State.history (app w') !! 0%nat = Some item'
    /\ transcribedText item' = "Good morning"
    /\ isFavorite item' = true.
Proof.
  intros w'.
  destruct (toggleFavorite_changes_only_the_flag morningEnv oneRecordWorld
              "1700000000000" 0 storedItem eq_refl)
    as (item' & Hi & _ & Htxt & _ & _ & _ & _ & _ & Hfav & _).
  exists item'. split; [exact Hi|]. split; [exact Htxt|exact Hfav].
Defined.

(** ** Conversation turns *)

(** Unfold a conversation turn down to the monad. *)
Ltac unfold_turn :=
  unfold conversationTurn, startConversationRecording,
    stopConversationRecording, generateAIResponse, fromLang, toLang,
    conversationContext;
  unfold_M; proj.

(** X17.  A conversation turn whose human part fails appends nothing: when
    the recording cannot be stopped or read, or the transcription or the
    translation request is rejected, the conversation, the history, the
    storage and the scheduled speech are as before.  One alert is raised,
    except when stopping the recording itself rejects, which no handler
    catches. *)
Theorem failed_turn_appends_nothing (E : Env) (t : TurnInput) (w : World) :
  humanTurnSucceeds E t w = false ->
  let w' := exec (conversationTurn E t) w in
  State.conversationHistory (app w') = State.conversationHistory (app w)
  /\ State.history (app w') = State.history (app w)
  /\ storage w' = storage w
  /\ timers w' = timers w
  /\ alerts w' =
     (if stopAndUnloadOk (t_recording t) then
        (alerts w ++
         [("Error",
           if JS.falsy (getURI (t_recording t)) then "No audio recorded."
           else "Failed to process audio. Check your API key and network.")])%list
      else alerts w).
Proof.
  intros Hfail w'. subst w'.
  unfold humanTurnSucceeds, fromLang, toLang in Hfail. revert Hfail. proj.
  unfold_turn.
  destruct (stopAndUnloadOk (t_recording t)); proj;
    [|intros _; repeat split; reflexivity].
  destruct (JS.falsy (getURI (t_recording t))); proj;
    [intros _; repeat split; reflexivity|].
  destruct (fetched (t_recording t)) as [audio|]; proj;
    [|intros _; repeat split; reflexivity].
  cbn [andb].
  next_answer raw1; [|intros _; repeat split; reflexivity].
  next_answer raw2; [discriminate|intros _; repeat split; reflexivity].
Qed.

Lemma failed_turn_appends_nothing_witness :
  let t := mkTurnInput A 3000 sampleRecording in
  let w' := exec (conversationTurn voiceFailEnv t) freshWorld in
  State.conversationHistory (app w') = []
  /\ alerts w' =
     [("Error", "Failed to process audio. Check your API key and network.")].
Proof.
  intros t w'.
  destruct (failed_turn_appends_nothing voiceFailEnv t freshWorld eq_refl)
    as (Hconv & _ & _ & _ & Hal).
  split; [exact Hconv|exact Hal].
Defined.

(** X18.  With generated replies switched off, a turn whose human part
    succeeds makes exactly its two requests, appends exactly the speaker's
    item, identified by a reading of the clock in decimal taken no later
    than its time stamp, schedules no speech and raises no alert. *)
Theorem turn_without_reply (E : Env) (t : TurnInput) (w : World) :
  State.aiConversationMode (app w) = false ->
  humanTurnSucceeds E t w = true ->
  let w' := exec (conversationTurn E t) w in
  exists human,
    State.conversationHistory (app w')
    = (State.conversationHistory (app w) ++ [human])%list
    /\ c_speaker human = t_speaker t
    /\ (exists key, c_id human = pretty key
                    /\ now w + Z.of_N (t_pause t) <= key <= c_timestamp human)
    /\ length (newCalls w w') = 2%nat
    /\ timers w' = timers w
    /\ alerts w' = alerts w
    /\ State.isLoading (app w') = false.
Proof.
  intros Hai Hok w'. subst w'.
  unfold humanTurnSucceeds, fromLang, toLang in Hok. revert Hok. proj.
  unfold_turn.
  destruct (stopAndUnloadOk (t_recording t)); [|discriminate].
  destruct (JS.falsy (getURI (t_recording t))); [discriminate|].
  destruct (fetched (t_recording t)) as [audio|]; [|discriminate].
  proj. cbn [andb].
  next_answer raw1; [|discriminate].
  next_answer raw2; [|discriminate].
  intros _. rewrite Hai. proj.
  eexists. split; [reflexivity|]. proj.
  split; [reflexivity|].
  split; [eexists; split; [reflexivity|proj; lia]|].
  split; [new_calls; reflexivity|]. repeat split; reflexivity.
Qed.

Lemma turn_without_reply_witness :
  let w := exec (setAiConversationMode false) freshWorld in
  let t := mkTurnInput B 3000 sampleRecording in
  let w' := exec (conversationTurn chatEnv t) w in
  exists human,
    State.conversationHistory (app w') = [human]
    /\ c_speaker human = B
    /\ length (newCalls w w') = 2%nat.
Proof.
  intros w t w'.
  destruct (turn_without_reply chatEnv t w eq_refl eq_refl)
    as (human & Hconv & Hsp & _ & Hcalls & _).
  exists human. split; [exact Hconv|]. split; [exact Hsp|exact Hcalls].
Defined.

(** X19.  With generated replies switched on, a turn all of whose requests
    are answered appends the speaker's item and then the reply, attributed
    to the other speaker.  The reply request carries the translated message
    and the context of the conversation as it was before the turn; the
    reply is scheduled to be spoken in the listener's language; and the two
    items of the turn carry different identifiers. *)
Theorem turn_with_reply (E : Env) (t : TurnInput) (w : World) :
  State.aiConversationMode (app w) = true ->
  humanTurnSucceeds E t w = true ->
  let w' := exec (conversationTurn E t) w in
  let listenerLang := match t_speaker t with
                      | A => State.targetLang (app w)
                      | B => State.sourceLang (app w)
                      end in
  forallb succeeded (newCalls w w') = true ->
  exists human reply,
    State.conversationHistory (app w')
    = (State.conversationHistory (app w) ++ [human; reply])%list
    /\ c_speaker human = t_speaker t
    /\ c_speaker reply = opposite (t_speaker t)
    /\ map fst (newCalls w w') !! 2%nat
       = Some (Prompt (responsePrompt (c_translation human)
                         (conversationContext (app w)) listenerLang))
    /\ timers w' = (timers w ++ [(c_text reply, listenerLang)])%list
    /\ c_id human <> c_id reply
    /\ alerts w' = alerts w.
Proof.
  intros Hai Hok w' listenerLang. subst w' listenerLang.
  unfold humanTurnSucceeds, fromLang, toLang in Hok. revert Hok. proj.
  unfold_turn.
  destruct (stopAndUnloadOk (t_recording t)); [|discriminate].
  destruct (JS.falsy (getURI (t_recording t))); [discriminate|].
  destruct (fetched (t_recording t)) as [audio|]; [|discriminate].
  proj. cbn [andb].
  next_answer raw1; [|discriminate].
  next_answer raw2; [|discriminate].
  intros _. rewrite Hai. proj.
  next_answer raw3; [|new_calls; discriminate].
  next_answer raw4; [|new_calls; discriminate].
  intros _.
  eexists _, _. rewrite <- app_assoc. split; [reflexivity|]. proj.
  split; [reflexivity|].
  split; [destruct (t_speaker t); reflexivity|].
  split; [new_calls; reflexivity|].
  split; [reflexivity|].
  split; [|reflexivity].
  intros Hid. apply (inj pretty) in Hid. lia.
Qed.

Lemma turn_with_reply_witness :
  let t := mkTurnInput A 3000 sampleRecording in
  let w' := exec (conversationTurn chatEnv t) freshWorld in
  exists human reply,
    State.conversationHistory (app w') = [human; reply]
    /\ c_speaker reply = B
    /\ timers w' = [(c_text reply, "es")].
Proof.
  intros t w'.
  destruct (turn_with_reply chatEnv t freshWorld eq_refl eq_refl eq_refl)
    as (human & reply & Hconv & _ & Hsp & _ & Htimers & _).
  exists human, reply. split; [exact Hconv|]. split; [exact Hsp|exact Htimers].
Defined.

Lemma fresh_identifier (w : World) (key : Z) :
  Forall (fun c => exists k, c_id c = pretty k /\ k <= now w + 1)
    (State.conversationHistory (app w)) ->
  now w + 2 <= key ->
  pretty key ∉ map c_id (State.conversationHistory (app w)).
Proof.
  intros Hbound Hkey Hin.
  apply list_elem_of_fmap in Hin as (c & Heq & Hc).
  rewrite Forall_forall in Hbound.
  destruct (Hbound c Hc) as (k & Hk & Hle).
  rewrite Hk in Heq. apply (inj pretty) in Heq. lia.
Qed.

(** Successful turns at least two milliseconds apart keep the identifiers
    in order. *)
Lemma converse_ids (E : Env) (ts : list TurnInput) :
  forall w,
    State.aiConversationMode (app w) = true ->
    allTurnsSucceed E ts w = true ->
    Forall (fun t => (2 <= t_pause t)%N) ts ->
    idsInOrder w ->
    idsInOrder (converse E ts w).
Proof.
  induction ts as [|t ts IH]; intros w Hai Hall Hpause Hinv; [exact Hinv|].
  cbn [allTurnsSucceed] in Hall. apply andb_prop in Hall as [Ht Hts].
  apply Forall_cons in Hpause as [Hp Hpause].
  destruct (conversationTurn_effect E t w Hai Ht)
    as (human & key & _ & Hid & Hlow & Hai' & Hcase).
  rewrite converse_cons. apply IH; try assumption.
  destruct Hinv as [Hnodup Hbound].
  assert (Hfresh : pretty key ∉ map c_id (State.conversationHistory (app w)))
    by (apply fresh_identifier; [exact Hbound|lia]).
  unfold idsInOrder.
  destruct Hcase
    as [[Hconv Hup]
       | (reply & replyKey & Hconv & _ & Hrid & Hlt & Hstamp)];
    rewrite Hconv, map_app; cbn [map].
  - split.
    + apply NoDup_app. split; [exact Hnodup|]. split.
      * intros x Hx Hin. apply list_elem_of_singleton in Hin. subst x.
        rewrite Hid in Hx. contradiction.
      * apply NoDup_singleton.
    + apply Forall_app. split.
      * eapply Forall_impl; [exact Hbound|]. cbn beta.
        intros c (k & Hk & Hle). exists k. split; [exact Hk|lia].
      * repeat constructor. exists key. split; [exact Hid|lia].
  - assert (Hfresh' : pretty replyKey
                      ∉ map c_id (State.conversationHistory (app w)))
      by (apply fresh_identifier; [exact Hbound|lia]).
    split.
    + apply NoDup_app. split; [exact Hnodup|]. split.
      * intros x Hx Hin.
        apply elem_of_cons in Hin as [->|Hin];
          [rewrite Hid in Hx; contradiction|].
        apply list_elem_of_singleton in Hin. subst x.
        rewrite Hrid in Hx. contradiction.
      * apply NoDup_cons. split; [|apply NoDup_singleton].
        intros Hin. apply list_elem_of_singleton in Hin.
        rewrite Hid, Hrid in Hin. apply (inj pretty) in Hin. lia.
    + apply Forall_app. split.
      * eapply Forall_impl; [exact Hbound|]. cbn beta.
        intros c (k & Hk & Hle). exists k. split; [exact Hk|lia].
      * repeat constructor.
        -- exists key. split; [exact Hid|lia].
        -- exists replyKey. split; [exact Hrid|lia].
Qed.

(** X20.  The identifiers of the items of a conversation, which the view
    uses as keys, are pairwise different when at least two milliseconds
    pass before each turn: starting from an empty conversation with replies
    enabled, after turns whose human part succeeds no identifier occurs
    twice. *)
Theorem conversation_ids_are_unique (E : Env) (ts : list TurnInput)
    (w : World) :
  State.conversationHistory (app w) = [] ->
  State.aiConversationMode (app w) = true ->
  allTurnsSucceed E ts w = true ->
  Forall (fun t => (2 <= t_pause t)%N) ts ->
  NoDup (map c_id (State.conversationHistory (app (converse E ts w)))).
Proof.
  intros Hempty Hai Hall Hpause.
  apply (converse_ids E ts w Hai Hall Hpause).
  unfold idsInOrder. rewrite Hempty. split; constructor.
Qed.

Lemma conversation_ids_are_unique_witness :
  NoDup
    (map c_id
       (State.conversationHistory
          (app (converse chatEnv relaxedTurns freshWorld)))).
Proof.
  apply (conversation_ids_are_unique chatEnv relaxedTurns freshWorld);
    try reflexivity.
  repeat constructor; vm_compute; discriminate.
Defined.

(** ** Pictures *)

(** X21.  A picture in which no text is found ends silently: when the
    extraction request is answered with nothing but white space,
    [processImageForOCR] makes no other request, appends and stores
    nothing, raises no alert, shows the picture with an empty text and
    switches its progress indicator off. *)
Theorem processImageForOCR_without_text (E : Env) (w : World)
    (imageUri data raw : string) :
  respond E (length (calls w))
    (PromptWithMedia extractPrompt "image/jpeg" data) = Some raw ->
  JS.trim raw = EmptyString ->
  exists w',
    processImageForOCR E (app w) imageUri (Some data) w = (Resolved tt, w')
    /\ length (newCalls w w') = 1%nat
    /\ State.history (app w') = State.history (app w)
    /\ storage w' = storage w
    /\ alerts w' = alerts w
    /\ State.ocrImage (app w') = Some imageUri
    /\ State.ocrText (app w') = EmptyString
    /\ State.isProcessingOCR (app w') = false.
Proof.
  intros Hraw Hblank. unfold processImageForOCR. unfold_M. proj.
  rewrite Hraw. proj. rewrite Hblank. cbn [JS.truthy]. proj.
  eexists. split; [reflexivity|]. proj.
  split; [new_calls; reflexivity|]. repeat split; reflexivity.
Qed.

Lemma processImageForOCR_without_text_witness :
  let E := scripted [Some ("  " +:+ nl)] 40 in
  exists w',
    processImageForOCR E (app freshWorld) "file:///photo.jpg"
      (Some "/9j/4AAQSkZJRg") freshWorld = (Resolved tt, w')
    /\ State.history (app w') = []
    /\ alerts w' = [].
Proof.
  intros E.
  destruct (processImageForOCR_without_text E freshWorld "file:///photo.jpg"
              "/9j/4AAQSkZJRg" ("  " +:+ nl) eq_refl eq_refl)
    as (w' & Hrun & _ & Hh & _ & Hal & _).
  exists w'. split; [exact Hrun|]. split; [exact Hh|exact Hal].
Defined.

(** X22.  When the picture cannot be read or a request is rejected while a
    picture is processed, exactly one alert is raised and nothing is kept:
    [processImageForOCR] still resolves, the history and the storage are as
    before and both indicators are off when it ends (given the loading
    indicator was off).  The alert is that of the extraction when the
    picture cannot be read or the first request is rejected, and that of
    the translation of the extracted text otherwise: the failure of the
    inner pipeline does not reach the outer handler. *)
Theorem processImageForOCR_failure (E : Env) (w : World)
    (imageUri : string) (image : option string) :
  let w' := exec (processImageForOCR E (app w) imageUri image) w in
  image = None \/ forallb succeeded (newCalls w w') = false ->
  State.isLoading (app w) = false ->
  fst (processImageForOCR E (app w) imageUri image w) = Resolved tt
  /\ State.history (app w') = State.history (app w)
  /\ storage w' = storage w
  /\ alerts w' =
     (alerts w ++
      [match head (newCalls w w') with
       | Some (_, Some _) => ("Error", "Failed to translate extracted text.")
       | _ =>
           ("Error",
            "Failed to process image. Check your API key and network connection.")
       end])%list
  /\ State.isProcessingOCR (app w') = false
  /\ State.isLoading (app w') = false.
Proof.
  intros w' Hfail Hoff. subst w'. revert Hfail.
  unfold processImageForOCR, translateExtractedText. unfold_M. proj.
  destruct image as [data|]; proj.
  2:{ intros _. new_calls. repeat split; first [reflexivity|exact Hoff]. }
  next_answer raw.
  2:{ intros _. new_calls. repeat split; first [reflexivity|exact Hoff]. }
  destruct (JS.truthy (JS.trim raw)); proj.
  2:{ new_calls. intros [H|H]; discriminate H. }
  destruct (String.eqb (State.sourceLang (app w)) "auto"); proj.
  - next_answer rawD.
    2:{ intros _. new_calls. repeat split; first [reflexivity|exact Hoff]. }
    next_answer rawT.
    2:{ intros _. new_calls. repeat split; first [reflexivity|exact Hoff]. }
    next_answer rawTips.
    2:{ intros _. new_calls. repeat split; first [reflexivity|exact Hoff]. }
    destruct (storageOk E (ios w)); proj;
      new_calls; intros [H|H]; discriminate H.
  - next_answer rawT.
    2:{ intros _. new_calls. repeat split; first [reflexivity|exact Hoff]. }
    next_answer rawTips.
    2:{ intros _. new_calls. repeat split; first [reflexivity|exact Hoff]. }
    destruct (storageOk E (ios w)); proj;
      new_calls; intros [H|H]; discriminate H.
Qed.

Lemma processImageForOCR_failure_witness :
  let E := scripted [Some "Exit"; None] 40 in
  let w' := exec (processImageForOCR E (app freshWorld) "file:///photo.jpg"
                    (Some "/9j/4AAQSkZJRg")) freshWorld in
  State.history (app w') = []
  /\ alerts w' = [("Error", "Failed to translate extracted text.")].
Proof.
  intros E w'.
  destruct (processImageForOCR_failure E freshWorld "file:///photo.jpg"
              (Some "/9j/4AAQSkZJRg") (or_intror eq_refl) eq_refl)
    as (_ & Hh & _ & Hal & _).
  split; [exact Hh|exact Hal].
Defined.

(** X25.  A failed write is handled differently by the picture pipeline
    and by [saveTranslation]: when every request of
    [translateExtractedText] is answered and its storage write fails, the
    call still resolves and the new record still heads the history cell,
    the storage is as before, and the alert of the pipeline is raised. *)
Theorem translateExtractedText_write_failure (E : Env) (w : World)
    (txt : string) :
  storageOk E (ios w) = false ->
  let w' := exec (handle (fun r => translateExtractedText E r txt)) w in
  forallb succeeded (newCalls w w') = true ->
  fst (handle (fun r => translateExtractedText E r txt) w) = Resolved tt
  /\ (exists item,
        State.history (app w') = item :: State.history (app w)
        /\ transcribedText item = txt
        /\ isFavorite item = false)
  /\ storage w' = storage w
  /\ alerts w' =
     (alerts w ++ [("Error", "Failed to translate extracted text.")])%list
  /\ State.isLoading (app w') = false.
Proof.
  intros Hfail w'. subst w'.
  unfold translateExtractedText. unfold_M. proj.
  destruct (String.eqb (State.sourceLang (app w)) "auto"); proj.
  - next_answer raw; [|new_calls; discriminate].
    next_answer rawT; [|new_calls; discriminate].
    next_answer rawTips; [|new_calls; discriminate].
    intros _. rewrite Hfail. proj.
    split; [reflexivity|]. split; [eexists; repeat split; reflexivity|].
    repeat split; reflexivity.
  - next_answer rawT; [|new_calls; discriminate].
    next_answer rawTips; [|new_calls; discriminate].
    intros _. rewrite Hfail. proj.
    split; [reflexivity|]. split; [eexists; repeat split; reflexivity|].
    repeat split; reflexivity.
Qed.

Lemma translateExtractedText_write_failure_witness :
  let E := mkEnv (fun n _ => Some "Salida") (fun _ => 40%N) (fun _ => false)
             (fun _ => 0%N) JS.lowerLatin1 in
  let w' := exec (handle (fun r => translateExtractedText E r "Exit"))
              freshWorld in
  (exists item, State.history (app w') = [item]
                /\ transcribedText item = "Exit")
  /\ storage w' = ∅
  /\ alerts w' = [("Error", "Failed to translate extracted text.")].
Proof.
  intros E w'.
  destruct (translateExtractedText_write_failure E freshWorld "Exit"
              eq_refl eq_refl)
    as (_ & (item & Hh & Htxt & _) & Hst & Hal & _).
  split; [exists item; split; [exact Hh|exact Htxt]|].
  split; [exact Hst|exact Hal].
Defined.

(** A picture that cannot be read makes no request. *)
Lemma picture_unreadable_no_call (E : Env) (r : State.AppState)
    (imageUri : string) (w : World) (l : list (Request * option string)) :
  calls w = l ->
  drop (length l)
    (calls (processImageForOCR E r imageUri None w).2) = [].
Proof.
  intros <-. unfold processImageForOCR. unfold_M. proj. apply drop_all.
Qed.

(** Unfold the handlers around [processImageForOCR], not that one. *)
Ltac unfold_picking :=
  cbv [pickImageForOCR openCamera openGallery afterLaunch notAwaited
       mbind M_bind bind ret throw tryCatch exec Alert_alert console_error
       newCalls];
  cbn [fst snd calls].

(** X23.  Picking a picture makes requests only for a picture actually
    picked: [pickImageForOCR] makes a request only when the permission is
    granted and the camera (with its own permission granted) or the gallery
    gives an asset whose data can be read, and then it does what
    [processImageForOCR] does on that asset after the dialog.  A denied
    permission, a cancelled or empty result and a failing launch make no
    request. *)
Theorem pickImageForOCR_requests_need_a_picture (E : Env)
    (r : State.AppState) (permission : Permission) (choice : ImageSource)
    (w : World) :
  let w' := exec (pickImageForOCR E r permission choice) w in
  newCalls w w' <> [] ->
  permission = Granted
  /\ exists uri data,
       (choice = FromCamera Granted (LaunchAsset uri (Some data))
        \/ choice = FromGallery (LaunchAsset uri (Some data)))
       /\ w' = exec (processImageForOCR E r uri (Some data))
                 (exec (Alert_alert "Select Image Source"
                          "Choose how you want to select an image:") w).
Proof.
  intros w'. subst w'.
  destruct permission;
    [|intros H; exfalso; apply H; unfold_picking; apply drop_all ..].
  destruct choice as [[| |] launch|launch|];
    [| intros H; exfalso; apply H; unfold_picking; apply drop_all
     | intros H; exfalso; apply H; unfold_picking; apply drop_all
     |
     | intros H; exfalso; apply H; unfold_picking; apply drop_all ].
  - destruct launch as [| |uri [data|]|];
      [ intros H; exfalso; apply H; unfold_picking; apply drop_all
      | intros H; exfalso; apply H; unfold_picking; apply drop_all
      | | | intros H; exfalso; apply H; unfold_picking; apply drop_all ].
    + intros _. split; [reflexivity|]. exists uri, data.
      split; [left; reflexivity|]. reflexivity.
    + intros H. exfalso. apply H. unfold_picking.
      exact (picture_unreadable_no_call E r uri
               (mkWorld (app w) (storage w) (now w) (calls w) (ios w)
                  (alerts w ++
                   [("Select Image Source",
                     "Choose how you want to select an image:")])
                  (errors w) (timers w) (reads w)) (calls w) eq_refl).
  - destruct launch as [| |uri [data|]|];
      [ intros H; exfalso; apply H; unfold_picking; apply drop_all
      | intros H; exfalso; apply H; unfold_picking; apply drop_all
      | | | intros H; exfalso; apply H; unfold_picking; apply drop_all ].
    + intros _. split; [reflexivity|]. exists uri, data.
      split; [right; reflexivity|]. reflexivity.
    + intros H. exfalso. apply H. unfold_picking.
      exact (picture_unreadable_no_call E r uri
               (mkWorld (app w) (storage w) (now w) (calls w) (ios w)
                  (alerts w ++
                   [("Select Image Source",
                     "Choose how you want to select an image:")])
                  (errors w) (timers w) (reads w)) (calls w) eq_refl).
Qed.

Lemma pickImageForOCR_requests_need_a_picture_witness :
  let choice := FromGallery (LaunchAsset "file:///photo.jpg"
                               (Some "/9j/4AAQSkZJRg")) in
  let w' := exec (pickImageForOCR textThenPictureEnv (app freshWorld)
                    Granted choice) freshWorld in
  w' = exec (processImageForOCR textThenPictureEnv (app freshWorld)
               "file:///photo.jpg" (Some "/9j/4AAQSkZJRg"))
         (exec (Alert_alert "Select Image Source"
                  "Choose how you want to select an image:") freshWorld).
Proof.
  intros choice w'.
  destruct (pickImageForOCR_requests_need_a_picture textThenPictureEnv
              (app freshWorld) Granted choice freshWorld)
    as (_ & uri & data & Hchoice & Hrun).
  - vm_compute. discriminate.
  - destruct Hchoice as [Hc|Hc]; [discriminate Hc|].
    injection Hc as <- <-. exact Hrun.
Defined.

(** ** Connectivity *)

(** X24.  Once the connectivity listener has reported that the device is
    not connected (or that it does not know), every control that needs the
    network is inert: pressing the microphone button, the translate button,
    the picture button or the microphone button of the conversation view
    resolves and changes nothing. *)
Theorem offline_controls_are_inert (E : Env) (c : NetworkControl)
    (isConnected : option bool) (w : World) :
  isConnected <> Some true ->
  let w0 := exec (onConnectivityChange isConnected) w in
  State.isOffline (app w0) = true
  /\ handle (fun r => press (control E c r)) w0 = (Resolved tt, w0).
Proof.
  intros Hoff w0.
  assert (H : State.isOffline (app w0) = true).
  { subst w0. destruct isConnected as [[|]|]; [contradiction|reflexivity ..]. }
  split; [exact H|].
  unfold handle, press.
  destruct c; cbn [control micButton translateButton ocrButton
                     conversationMicButton disabled];
    rewrite H; reflexivity.
Qed.

Lemma offline_controls_are_inert_witness :
  let w0 := exec (onConnectivityChange None) (typed "Good morning" freshWorld) in
  handle (fun r => press (control morningEnv TranslateControl r)) w0
  = (Resolved tt, w0).
Proof.
  intros w0.
  apply (offline_controls_are_inert morningEnv TranslateControl None
           (typed "Good morning" freshWorld)).
  discriminate.
Defined.
